(** * ai-bug-reporter: the bug-extraction and ticket-filing pipeline

    A shallow embedding of the Python sources [jira_client.py],
    [analysis.py], [utils.py] and the clip-planning loop of [app.py],
    with the properties of the pipeline stated and proved over it.

    Conventions.
    - A Python [str] is a [string]; its characters are code points below 256.
    - A Python [int] is a [Z], a [float] a binary64 [float] of the kernel;
      a [bytes] value is a [list byte].
    - A dict read from JSON keeps its items in a list; the clip map, a dict
      from bug numbers to paths, is a [gmap].
    - Code that talks to the outside (file system, [requests.post],
      [time.sleep]) runs in the monad [M]: a state of recorded events threaded
      through the calls, with Python exceptions as the error side.  The file
      system and the answers of the network are given by an environment
      [env] that does not change during a call. *)

From Stdlib Require Import ZArith String Ascii List Bool Lia.
From Stdlib Require Import Strings.Byte DecimalString.
From Stdlib Require Import PrimFloat FloatOps SpecFloat Uint63.
From Stdlib Require Import Orders Sorting.Mergesort Sorting.Sorted.
From Stdlib Require Import Sorting.Permutation.
From stdpp Require Import base option gmap.

Import ListNotations.
Set Warnings "-register-all,-abstract-large-number".
Local Open Scope list_scope.
Local Open Scope string_scope.
Local Open Scope Z_scope.

(** ** Python strings and bytes *)

Module Py.

(** [str(n)] for an [int]. *)
Definition str_int (n : Z) : string := NilZero.string_of_int (Z.to_int n).

(** [s[:n]]. *)
Definition take (n : nat) (s : string) : string := substring 0 n s.

(** [s[lo:hi]] for [0 <= lo] and [0 <= hi]: empty when [hi <= lo]. *)
Definition str_slice (lo hi : nat) (s : string) : string :=
  substring lo (hi - lo) s.

(** [b[lo:hi]] on bytes, for [0 <= lo <= hi]: slicing clamps to the length. *)
Definition slice {A} (lo hi : nat) (l : list A) : list A :=
  firstn (hi - lo) (skipn lo l).

Fixpoint bytes_eqb (a b : list byte) : bool :=
  match a, b with
  | [], [] => true
  | x :: a', y :: b' => Byte.eqb x y && bytes_eqb a' b'
  | _, _ => false
  end.

(** Truthiness of a [str]: only the empty string is falsy. *)
Definition truthy (s : string) : bool :=
  match s with EmptyString => false | _ => true end.

(** [a or b] where [a] is [None] or a [str]. *)
Definition or_else (a : option string) (b : string) : string :=
  match a with
  | Some s => if truthy s then s else b
  | None => b
  end.

(** [c.lower()] on one character: the capitals A-Z, and those of Latin-1
    (0xC0-0xDE without the multiplication sign 0xD7). *)
Definition lower_char (c : ascii) : ascii :=
  let n := nat_of_ascii c in
  if ((65 <=? n)%nat && (n <=? 90)%nat)
     || ((192 <=? n)%nat && (n <=? 222)%nat && negb (n =? 215)%nat)
  then ascii_of_nat (n + 32) else c.

Fixpoint lower (s : string) : string :=
  match s with
  | EmptyString => EmptyString
  | String c s' => String (lower_char c) (lower s')
  end.

(** [s.endswith(suffix)]. *)
Definition endswith (s suffix : string) : bool :=
  let n := String.length s in
  let k := String.length suffix in
  (k <=? n)%nat && String.eqb (substring (n - k) k s) suffix.

(** Index of the last occurrence of character [c], as [s.rfind(c)]. *)
Fixpoint rfind_char (c : ascii) (s : string) : option nat :=
  match s with
  | EmptyString => None
  | String d s' =>
      match rfind_char c s' with
      | Some i => Some (S i)
      | None => if Ascii.eqb c d then Some O else None
      end
  end.

(** Index of the first occurrence of character [c], as [s.find(c)]. *)
Fixpoint find_char (c : ascii) (s : string) : option nat :=
  match s with
  | EmptyString => None
  | String d s' =>
      if Ascii.eqb c d then Some O
      else match find_char c s' with
           | Some i => Some (S i)
           | None => None
           end
  end.

(** [s.rsplit(sep, 1)[0]] for a one-character separator. *)
Definition rsplit1_head (sep : ascii) (s : string) : string :=
  match rfind_char sep s with
  | Some i => substring 0 i s
  | None => s
  end.

(** [os.path.basename(p)] (POSIX): what follows the last slash. *)
Definition basename (p : string) : string :=
  match rfind_char "/"%char p with
  | Some i => substring (S i) (String.length p - S i) p
  | None => p
  end.

(** [c.isspace()] for a code point below 256: the ASCII controls 9-13 and
    28-31, the space, NEL (0x85) and the no-break space (0xA0). *)
Definition is_space (c : ascii) : bool :=
  let n := nat_of_ascii c in
  ((9 <=? n)%nat && (n <=? 13)%nat) || ((28 <=? n)%nat && (n <=? 32)%nat)
  || (n =? 133)%nat || (n =? 160)%nat.

Fixpoint lstrip (s : string) : string :=
  match s with
  | EmptyString => EmptyString
  | String c s' => if is_space c then lstrip s' else s
  end.

Fixpoint rstrip (s : string) : string :=
  match s with
  | EmptyString => EmptyString
  | String c s' =>
      match rstrip s' with
      | EmptyString => if is_space c then EmptyString else String c EmptyString
      | r => String c r
      end
  end.

(** [s.strip()]. *)
Definition strip (s : string) : string := rstrip (lstrip s).

(** [s.split(sep)] for a one-character separator: never the empty list. *)
Fixpoint split (sep : ascii) (s : string) : list string :=
  match s with
  | EmptyString => [EmptyString]
  | String c s' =>
      if Ascii.eqb c sep then EmptyString :: split sep s'
      else match split sep s' with
           | h :: t => String c h :: t
           | [] => [String c EmptyString]
           end
  end.

(** [sep.join(parts)]. *)
Fixpoint join (sep : string) (parts : list string) : string :=
  match parts with
  | [] => EmptyString
  | [p] => p
  | p :: rest => p ++ sep ++ join sep rest
  end.

(** The line feed character. *)
Definition LF : ascii := ascii_of_nat 10.

End Py.

(** ** Python numbers *)

(** A number read from JSON or from the speech-to-text result: an [int] or a
    [float] (binary64, with the operations of the machine). *)
Inductive number :=
| Int (n : Z)
| Float (x : float).

(** The [float] of a small [int] literal of the source (0, 2, 5): exact. *)
Definition float_lit (k : Z) : float := PrimFloat.of_uint63 (Uint63.of_Z k).

(** [v + k] for an [int] literal [k]. *)
Definition add_lit (v : number) (k : Z) : number :=
  match v with
  | Int n => Int (n + k)
  | Float x => Float (PrimFloat.add x (float_lit k))
  end.

(** [v - k] for an [int] literal [k]. *)
Definition sub_lit (v : number) (k : Z) : number :=
  match v with
  | Int n => Int (n - k)
  | Float x => Float (PrimFloat.sub x (float_lit k))
  end.

(** [v > 0]; on a [float] the comparison of the machine (false on NaN). *)
Definition gt_zero (v : number) : bool :=
  match v with
  | Int n => 0 <? n
  | Float x => PrimFloat.ltb 0%float x
  end.

(** [max(0, v)]: Python keeps the first argument unless the second is
    greater, so the result is the [int] 0 or [v] itself. *)
Definition max_zero (v : number) : number :=
  if gt_zero v then v else Int 0.

(** [a == b] on numbers, for an [int] below 2^53 in absolute value. *)
Definition num_eqb (a b : number) : bool :=
  let to_float v :=
    match v with
    | Int n => if n <? 0 then PrimFloat.opp (float_lit (- n)) else float_lit n
    | Float x => x
    end in
  match a, b with
  | Int x, Int y => x =? y
  | _, _ => PrimFloat.eqb (to_float a) (to_float b)
  end.

(** The integer part of a finite [float], towards zero. *)
Definition float_trunc (x : float) : option Z :=
  match Prim2SF x with
  | S754_zero _ => Some 0
  | S754_finite sign m e =>
      let magnitude :=
        if 0 <=? e then Z.pos m * 2 ^ e else Z.pos m / 2 ^ (- e) in
      Some (if sign then - magnitude else magnitude)
  | S754_infinity _ => None
  | S754_nan => None
  end.

(** ** Exceptions *)

(** The exception classes the handlers of the sources tell apart:
    [requests.exceptions.Timeout], the other
    [requests.exceptions.RequestException]s, and every other [Exception]. *)
Inductive exn_class := Timeout | RequestException | OtherException.

Record exn := MkExn { exn_cls : exn_class; exn_str : string }.

(** [int(v)]: a [float] loses its fraction; NaN and the infinities raise. *)
Definition py_int (v : number) : exn + Z :=
  match v with
  | Int n => inr n
  | Float x =>
      match float_trunc x with
      | Some z => inr z
      | None =>
          inl (MkExn OtherException
                 (if PrimFloat.is_nan x
                  then "cannot convert float NaN to integer"
                  else "cannot convert float infinity to integer"))
      end
  end.

(** ** The outside world *)

(** A path that exists: [st_size] is what [os.path.getsize] returns,
    [open_rb] what [open(path, "rb")] does: it raises (a directory, a file
    without read permission), or gives a handle on the bytes [byte_at 0],
    [byte_at 1], ... up to [st_size]. *)
Record node := MkNode {
  st_size : Z;
  open_err : option exn;
  byte_at : nat -> byte
}.

(** [f.read(n)] on a freshly opened file. *)
Definition read_bytes (nd : node) (n : Z) : list byte :=
  map (byte_at nd) (seq 0 (Z.to_nat (Z.min n (st_size nd)))).

(** What [json.loads] and [resp.json()] give: [None], a [bool], an [int], a
    [float] (binary64), a [str], a [list] or a [dict] with its items in
    order. *)
Inductive json :=
| JNull
| JBool (b : bool)
| JInt (n : Z)
| JFloat (x : float)
| JStr (s : string)
| JArr (items : list json)
| JObj (fields : list (string * json)).

(** A [requests.Response]. *)
Record response := MkResponse {
  status_code : Z;
  text : string;
  json_body : exn + json
}.

(** What one [requests.post] does: it returns a response or raises. *)
Inductive post_result :=
| Responds (r : response)
| Raises (e : exn).

Record env := MkEnv {
  fs : string -> option node;
  (** the outcome of the n-th [requests.post] of the run, counted from 0 *)
  net : nat -> post_result
}.

(** The fields of one ticket-creation request. *)
Record adf_text := MkText { text_type : string; text_text : string }.
Record adf_paragraph := MkParagraph { par_type : string; par_content : list adf_text }.
Record adf_doc := MkDoc {
  doc_version : Z;
  doc_type : string;
  doc_content : list adf_paragraph
}.

Record payload := MkPayload {
  p_project : string;
  p_summary : string;
  p_description : adf_doc;
  p_issuetype : string;
  p_priority : string
}.

(** What the code does to the outside, in order. *)
Inductive event :=
| EvAttach (issue_key : json) (filename : string) (timeout_seconds : Z)
| EvCreate (p : payload)
| EvSleep (seconds : Z).

Record world := MkWorld {
  posts : nat;          (* number of [requests.post] calls made so far *)
  trace : list event
}.

Definition world0 : world := MkWorld 0 [].

(** ** A state and exception monad for the effectful code *)

Definition M (A : Type) : Type := world -> (exn + A) * world.

Definition ret {A} (a : A) : M A := fun w => (inr a, w).

Definition raise {A} (e : exn) : M A := fun w => (inl e, w).

Definition bind {A B} (c : M A) (k : A -> M B) : M B :=
  fun w =>
    match c w with
    | (inr a, w') => k a w'
    | (inl e, w') => (inl e, w')
    end.

(** [try: c  except Exception as e: h e]; the effects of [c] up to the raise
    stay done. *)
Definition try_except {A} (c : M A) (h : exn -> M A) : M A :=
  fun w =>
    match c w with
    | (inr a, w') => (inr a, w')
    | (inl e, w') => h e w'
    end.

Notation "x <- c ;; k" := (bind c (fun x => k))
  (at level 100, c at next level, right associativity).
Notation "c ;;; k" := (bind c (fun _ => k))
  (at level 100, right associativity).

Section Effects.

Variable E : env.

Definition os_path_exists (p : string) : M bool :=
  ret (match fs E p with Some _ => true | None => false end).

Definition os_path_getsize (p : string) : M Z :=
  match fs E p with
  | Some nd => ret (st_size nd)
  | None => raise (MkExn OtherException ("No such file or directory: " ++ p))
  end.

(** [open(p, "rb")]: the handle is the node itself. *)
Definition open_rb (p : string) : M node :=
  match fs E p with
  | Some nd =>
      match open_err nd with
      | Some e => raise e
      | None => ret nd
      end
  | None => raise (MkExn OtherException ("No such file or directory: " ++ p))
  end.

Definition log (ev : event) : M unit :=
  fun w => (inr tt, MkWorld (posts w) (trace w ++ [ev])%list).

Definition time_sleep (seconds : Z) : M unit := log (EvSleep seconds).

(** [requests.post(...)]: the request is recorded, and the environment says
    how the call ends. *)
Definition requests_post (ev : event) : M response :=
  fun w =>
    let w' := MkWorld (S (posts w)) (trace w ++ [ev])%list in
    match net E (posts w) with
    | Responds r => (inr r, w')
    | Raises e => (inl e, w')
    end.

End Effects.

(** ** Attachment uploader: [attach_file_to_issue] of [jira_client.py] *)

Section Uploader.

Variable E : env.

(** [b'ftyp'] and [b'\x00\x00\x00\x20ftyp']. *)
Definition ftyp : list byte := [x66; x74; x79; x70].
Definition ftyp_box32 : list byte := [x00; x00; x00; x20; x66; x74; x79; x70].

(** The header test of the source:
    [header[4:8] == b'ftyp' or header[0:4] == b'\x00\x00\x00\x20ftyp']. *)
Definition is_mp4_header (header : list byte) : bool :=
  Py.bytes_eqb (Py.slice 4 8 header) ftyp
  || Py.bytes_eqb (Py.slice 0 4 header) ftyp_box32.

(** [f"{file_size / 1024 / 1024:.1f}"]: the size in MiB with one decimal,
    rounded half to even.  Dividing by 1024 is exact in binary64 for sizes
    below 2^53 bytes, so the quotient is computed on integers. *)
Definition fmt_mb (file_size : Z) : string :=
  let q := (file_size * 10) / 1048576 in
  let r := (file_size * 10) mod 1048576 in
  let tenths :=
    if (524288 <? r) || ((r =? 524288) && Z.odd q) then q + 1 else q in
  Py.str_int (tenths / 10) ++ "." ++ Py.str_int (tenths mod 10).

(** Lines 29-32: the name sent to Jira ends in [.mp4]. *)
Definition upload_filename (file_path : string) : string :=
  let filename := Py.basename file_path in
  if negb (Py.endswith (Py.lower filename) ".mp4")
  then Py.rsplit1_head "."%char filename ++ ".mp4"
  else filename.

(** [min(max(60, int(file_size / (1024 * 1024))), 300)]. *)
Definition timeout_for (file_size : Z) : Z :=
  Z.min (Z.max 60 (file_size / (1024 * 1024))) 300.

Definition attempt_tag (attempt max_retries : Z) : string :=
  "(attempt " ++ Py.str_int (attempt + 1) ++ "/" ++ Py.str_int max_retries ++ ")".

(** What one pass through the body of the [for] loop decides (lines 37-71):
    the function returns, or the loop goes on with a new [last_error]. *)
Inductive attempt_result :=
| Return (r : bool * string)
| Continue (last_error : option string).

(** Lines 37-71: the inner [try] with its three handlers. *)
Definition upload_attempt (issue_key : json) (file_path filename : string)
    (file_size attempt max_retries : Z) : M attempt_result :=
  try_except
    (f <- open_rb E file_path ;;
     let timeout_seconds := timeout_for file_size in
     resp <- requests_post E (EvAttach issue_key filename timeout_seconds) ;;
     if status_code resp <? 300 then ret (Return (true, ""))
     else
       let error_text :=
         if Py.truthy (text resp) then Py.take 500 (text resp)
         else "No error message" in
       let last_error :=
         "HTTP " ++ Py.str_int (status_code resp) ++ ": " ++ error_text in
       if (400 <=? status_code resp) && (status_code resp <? 500)
       then ret (Return (false, last_error))
       else ret (Continue (Some last_error)))
    (fun e =>
       match exn_cls e with
       | Timeout =>
           ret (Continue (Some
             ("Upload timeout " ++ attempt_tag attempt max_retries)))
       | RequestException =>
           ret (Continue (Some
             ("Network error " ++ attempt_tag attempt max_retries
                ++ ": " ++ exn_str e)))
       | OtherException =>
           ret (Continue (Some
             ("Unexpected error " ++ attempt_tag attempt max_retries
                ++ ": " ++ exn_str e)))
       end).

(** Lines 36-78: [for attempt in range(max_retries)], with [remaining]
    iterations still to run, then the final [return]. *)
Fixpoint retry_loop (issue_key : json) (file_path filename : string)
    (file_size max_retries : Z) (remaining : nat) (attempt : Z)
    (last_error : option string) : M (bool * string) :=
  match remaining with
  | O => ret (false, Py.or_else last_error "Upload failed after all retries")
  | S remaining' =>
      r <- upload_attempt issue_key file_path filename file_size
             attempt max_retries ;;
      match r with
      | Return res => ret res
      | Continue last_error' =>
          (if attempt <? max_retries - 1
           then time_sleep (2 ^ attempt)
           else ret tt) ;;;
          retry_loop issue_key file_path filename file_size max_retries
            remaining' (attempt + 1) last_error'
      end
  end.

(** Lines 9-80.  [jira_url], [jira_email] and [jira_token] only go into the
    request and are left out. *)
Definition attach_file_to_issue (issue_key : json) (file_path : string)
    (max_retries : Z) : M (bool * string) :=
  try_except
    (ex <- os_path_exists E file_path ;;
     if negb ex then ret (false, "File not found: " ++ file_path)
     else
       file_size <- os_path_getsize E file_path ;;
       if file_size =? 0 then ret (false, "File is empty")
       else if 10 * 1024 * 1024 <? file_size
       then ret (false, "File too large: " ++ fmt_mb file_size
                          ++ "MB (max 10MB)")
       else
         f <- open_rb E file_path ;;
         let header := read_bytes f 12 in
         if negb (is_mp4_header header)
         then ret (false, "File does not appear to be a valid MP4")
         else
           let filename := upload_filename file_path in
           retry_loop issue_key file_path filename file_size max_retries
             (Z.to_nat max_retries) 0 None)
    (fun e => ret (false, "Exception: " ++ exn_str e)).

End Uploader.

(** *** Evaluation on concrete files *)

Definition bytes_node (size : Z) (head : list byte) : node :=
  MkNode size None (fun i => nth i head x00).

(** A 2 MiB clip as ffmpeg writes it: box size 0x20, then [ftypisom]. *)
Definition mp4_head : list byte :=
  [x00; x00; x00; x20; x66; x74; x79; x70; x69; x73; x6f; x6d].

Definition one_file (p : string) (nd : node) : string -> option node :=
  fun q => if String.eqb q p then Some nd else None.

Definition answers (l : list post_result) : nat -> post_result :=
  fun n => nth n l (Raises (MkExn RequestException "connection refused")).

Definition http (status : Z) (body : string) : post_result :=
  Responds (MkResponse status body (inl (MkExn OtherException "not JSON"))).

(** A 2 MiB clip at [/tmp/clip.mp4]; Jira answers 503, 503, 200. *)
Definition clip_node : node := bytes_node 2097152 mp4_head.

Definition env_503_503_200 : env :=
  MkEnv (one_file "/tmp/clip.mp4" clip_node)
    (answers [http 503 "busy"; http 503 ""; http 200 "ok"]).

(** The same clip; Jira answers 400. *)
Definition env_400 : env :=
  MkEnv (one_file "/tmp/clip.mp4" clip_node)
    (answers [http 400 "bad request"]).

(** Files that fail the pre-flight: none at all, an empty one, one of
    11 MiB, and a WAV file. *)
Definition env_no_file : env := MkEnv (fun _ => None) (answers []).

Definition env_empty_file : env :=
  MkEnv (one_file "/tmp/clip.mp4" (bytes_node 0 [])) (answers []).

Definition env_11_mib : env :=
  MkEnv (one_file "/tmp/clip.mp4" (bytes_node 11534336 mp4_head))
    (answers []).

Definition wav_head : list byte :=
  [x52; x49; x46; x46; x24; x08; x00; x00; x57; x41; x56; x45].

Definition env_wav : env :=
  MkEnv (one_file "/tmp/clip.mp4" (bytes_node 2092 wav_head)) (answers []).

(** What the code records in [last_error] for a retried outcome of attempt
    number [attempt] (lines 61-62 and 66-71). *)
Definition recorded_error (attempt max_retries : Z) (o : post_result) : string :=
  match o with
  | Responds r =>
      "HTTP " ++ Py.str_int (status_code r) ++ ": "
        ++ (if Py.truthy (text r) then Py.take 500 (text r)
            else "No error message")
  | Raises e =>
      match exn_cls e with
      | Timeout => "Upload timeout " ++ attempt_tag attempt max_retries
      | RequestException =>
          "Network error " ++ attempt_tag attempt max_retries
            ++ ": " ++ exn_str e
      | OtherException =>
          "Unexpected error " ++ attempt_tag attempt max_retries
            ++ ": " ++ exn_str e
      end
  end.

(** ** Ticket filer: [text_to_adf] and [create_issues] of [jira_client.py] *)

Definition empty_doc : adf_doc := MkDoc 1 "doc" [].

(** The paragraph appended for a line (lines 97-105). *)
Definition paragraph_of (line : string) : adf_paragraph :=
  MkParagraph "paragraph" [MkText "text" (Py.strip line)].

(** Lines 83-118. *)
Definition text_to_adf (text : string) : adf_doc :=
  if negb (Py.truthy text) then empty_doc
  else
    let lines := Py.split Py.LF (Py.strip text) in
    let paragraphs :=
      fold_left
        (fun paragraphs line =>
           if Py.truthy (Py.strip line)
           then (paragraphs ++ [paragraph_of line])%list
           else paragraphs)
        lines [] in
    let paragraphs :=
      match paragraphs with
      | [] => (paragraphs ++ [MkParagraph "paragraph" []])%list
      | _ => paragraphs
      end in
    MkDoc 1 "doc" paragraphs.

(** A bug dict as the extractor's contract describes it; a field the model
    left out is [None]. *)
Record bug := MkBug {
  b_summary : option string;
  b_description : option string;
  b_priority : option string;
  b_start_sec : option number;
  b_end_sec : option number
}.

(** [os.getenv] of the four Jira variables. *)
Record jira_config := MkConfig {
  JIRA_URL : option string;
  JIRA_TOKEN : option string;
  JIRA_EMAIL : option string;
  JIRA_PROJECT : option string
}.

(** An entry of the returned error list: [{"error": msg}],
    [{"status": code, "body": text}] or
    [{"warning": f"Failed to attach video to {issue_key}: {error_msg}"}]. *)
Inductive report_entry :=
| RError (msg : string)
| RStatus (status : Z) (body : string)
| RWarning (issue_key : json) (error_msg : string).

(** Truthiness of a value read from JSON. *)
Definition json_truthy (v : json) : bool :=
  match v with
  | JNull => false
  | JBool b => b
  | JInt n => negb (n =? 0)
  | JFloat x => negb (PrimFloat.eqb x 0%float)
  | JStr s => Py.truthy s
  | JArr items => match items with [] => false | _ => true end
  | JObj fields => match fields with [] => false | _ => true end
  end.

Definition type_name (v : json) : string :=
  match v with
  | JNull => "NoneType"
  | JBool _ => "bool"
  | JInt _ => "int"
  | JFloat _ => "float"
  | JStr _ => "str"
  | JArr _ => "list"
  | JObj _ => "dict"
  end.

Fixpoint assoc (k : string) (fields : list (string * json)) : option json :=
  match fields with
  | [] => None
  | (k', v) :: rest => if String.eqb k k' then Some v else assoc k rest
  end.

(** [v.get(k)]: only a dict has [get]; a missing key gives [None]. *)
Definition json_get (v : json) (k : string) : M json :=
  match v with
  | JObj fields => ret (match assoc k fields with Some x => x | None => JNull end)
  | _ => raise (MkExn OtherException
                  ("'" ++ type_name v ++ "' object has no attribute 'get'"))
  end.

Definition resp_json (r : response) : M json :=
  match json_body r with
  | inr v => ret v
  | inl e => raise e
  end.

Definition env_truthy (v : option string) : bool :=
  match v with Some s => Py.truthy s | None => false end.

Section Filer.

Variable E : env.
Variable cfg : jira_config.

Definition issue_payload (project_key : string) (b : bug) : payload :=
  let description_text := default "" (b_description b) in
  let description_adf := text_to_adf description_text in
  MkPayload project_key (default "QA Bug" (b_summary b)) description_adf
    "Bug" (default "Medium" (b_priority b)).

(** Lines 139-178: one pass through the body of the loop, from the error list
    so far to the error list after. *)
Definition file_issue (project_key : string) (video_clips : gmap nat string)
    (errors : list report_entry) (idx : nat) (b : bug)
    : M (list report_entry) :=
  let payload := issue_payload project_key b in
  try_except
    (resp <- requests_post E (EvCreate payload) ;;
     if 300 <=? status_code resp
     then ret (errors ++ [RStatus (status_code resp) (text resp)])%list
     else
       issue_data <- resp_json resp ;;
       issue_key <- json_get issue_data "key" ;;
       match (if json_truthy issue_key then video_clips !! idx else None) with
       | Some video_path =>
           ex <- os_path_exists E video_path ;;
           if ex then
             res <- attach_file_to_issue E issue_key video_path 3 ;;
             let '(attached, error_msg) := res in
             if negb attached
             then ret (errors ++ [RWarning issue_key error_msg])%list
             else ret errors
           else ret errors
       | None => ret errors
       end)
    (fun e => ret (errors ++ [RError (exn_str e)])%list).

(** [for idx, b in enumerate(bugs_list)], from index [idx] on. *)
Fixpoint file_issues (project_key : string) (video_clips : gmap nat string)
    (errors : list report_entry) (idx : nat) (bugs : list bug)
    : M (list report_entry) :=
  match bugs with
  | [] => ret errors
  | b :: rest =>
      errors' <- file_issue project_key video_clips errors idx b ;;
      file_issues project_key video_clips errors' (S idx) rest
  end.

(** Lines 121-179. *)
Definition create_issues (bugs_list : list bug)
    (video_clips : option (gmap nat string)) : M (list report_entry) :=
  if negb (env_truthy (JIRA_URL cfg) && env_truthy (JIRA_TOKEN cfg)
           && env_truthy (JIRA_EMAIL cfg) && env_truthy (JIRA_PROJECT cfg))
  then ret [RError "Missing Jira environment variables"]
  else
    let video_clips := default ∅ video_clips in
    file_issues (default "" (JIRA_PROJECT cfg)) video_clips [] 0%nat bugs_list.

End Filer.

(** The whitespace-only description ["   \n  "]. *)
Definition blank_text : string := "   " ++ String Py.LF "  ".

Fixpoint all_space (s : string) : bool :=
  match s with
  | EmptyString => true
  | String c s' => Py.is_space c && all_space s'
  end.

(** Jira creates the ticket [QA-7]; the clip recorded for bug 0 is gone
    from the disk when the ticket is filed. *)
Definition created (key : string) : post_result :=
  Responds (MkResponse 201 "{}" (inr (JObj [("id", JStr "10007"); ("key", JStr key)]))).

Definition env_clip_gone : env := MkEnv (fun _ => None) (answers [created "QA-7"]).

Definition cfg_demo : jira_config :=
  MkConfig (Some "https://jira.example") (Some "token") (Some "qa@example.org")
    (Some "QA").

Definition bug_demo : bug :=
  MkBug (Some "Login button unresponsive")
    (Some "Expected: login. Actual: nothing.") (Some "High")
    (Some (Float 9)) (Some (Float 12)).

Definition clips_demo : gmap nat string := {[ 0%nat := "/tmp/gone.mp4" ]}.

(** ** Bug extractor: the parse recovery of [analysis.py] *)

(** [json.loads] belongs to Python's library.  The extractor needs of it
    that it returns a value or raises ([None] here), and that the two
    literals the code falls back on parse to the empty list and the empty
    dict. *)
Class JsonLoads := {
  json_loads : string -> option json;
  loads_empty_array : json_loads "[]" = Some (JArr []);
  loads_empty_object : json_loads "{}" = Some (JObj [])
}.

Section Extractor.

Context {J : JsonLoads}.

(** Lines 79-89 of [analyze_with_transcript]. *)
Definition parse_bug_list (raw : string) : json :=
  match json_loads raw with
  | Some v => v
  | None =>
      let start_idx := Py.find_char "["%char raw in
      let end_idx := Py.rfind_char "]"%char raw in
      let slice_ :=
        match start_idx, end_idx with
        | Some i, Some j => Py.str_slice i (j + 1) raw
        | _, _ => "[]"
        end in
      match json_loads slice_ with
      | Some v => v
      | None => JArr []
      end
  end.

(** The value the candidate mode falls back on:
    [{"candidates": [], "notes": "Parsing failed"}]. *)
Definition parsing_failed : json :=
  JObj [("candidates", JArr []); ("notes", JStr "Parsing failed")].

(** Lines 27-37 of [find_candidate_seconds]. *)
Definition parse_candidates (raw : string) : json :=
  match json_loads raw with
  | Some v => v
  | None =>
      let start_idx := Py.find_char "{"%char raw in
      let end_idx := Py.rfind_char "}"%char raw in
      let fp_slice :=
        match start_idx, end_idx with
        | Some i, Some j => Py.str_slice i (j + 1) raw
        | _, _ => "{}"
        end in
      match json_loads fp_slice with
      | Some v => v
      | None => parsing_failed
      end
  end.

(** The chat completion: from the transcript put into the prompt to the
    [message.content] of the first choice ([None] or a [str]), unless the
    call raises.  The fixed instruction text, the model name and the
    temperature are left out. *)
Definition chat_client := string -> exn + option string.

(** [analyze_with_transcript]: the transcript is cut at 6000 characters. *)
Definition analyze_with_transcript (client : chat_client)
    (timestamped_text : string) : exn + json :=
  match client (Py.take 6000 timestamped_text) with
  | inl e => inl e
  | inr content =>
      let raw := Py.or_else content "[]" in
      inr (parse_bug_list raw)
  end.

(** [find_candidate_seconds]: the whole transcript goes into the prompt. *)
Definition find_candidate_seconds (client : chat_client)
    (timestamped_text : string) : exn + json :=
  match client timestamped_text with
  | inl e => inl e
  | inr content =>
      let raw := Py.or_else content "{}" in
      inr (parse_candidates raw)
  end.

End Extractor.

(** *** A parser to evaluate the extractor with

    A recursive-descent parser for JSON without fractions, exponents and
    [\u] escapes.  It is the instance of [JsonLoads] at which the statements
    about the extractor are evaluated on concrete responses; on the texts it
    accepts it returns what [json.loads] returns. *)

Module RefJson.

Definition DQ : ascii := ascii_of_nat 34.

Definition is_ws (c : ascii) : bool :=
  let n := nat_of_ascii c in
  (n =? 32)%nat || (n =? 9)%nat || (n =? 10)%nat || (n =? 13)%nat.

Fixpoint skip_ws (s : string) : string :=
  match s with
  | String c r => if is_ws c then skip_ws r else s
  | EmptyString => EmptyString
  end.

Definition is_digit (c : ascii) : bool :=
  let n := nat_of_ascii c in (48 <=? n)%nat && (n <=? 57)%nat.

(** The digits at the head of [s], read into [acc]. *)
Fixpoint digits (acc : Z) (s : string) : Z * string :=
  match s with
  | String c r =>
      if is_digit c
      then digits (10 * acc + Z.of_nat (nat_of_ascii c - 48)) r
      else (acc, s)
  | EmptyString => (acc, s)
  end.

Definition starts_number_tail (s : string) : bool :=
  match s with
  | String c _ =>
      Ascii.eqb c "."%char || Ascii.eqb c "e"%char || Ascii.eqb c "E"%char
  | EmptyString => false
  end.

(** An integer: an optional minus sign, then 0 or a digit 1-9 and more
    digits; not followed by a fraction or an exponent. *)
Definition p_int (s : string) : option (json * string) :=
  let '(neg, s1) :=
    match s with
    | String c r => if Ascii.eqb c "-"%char then (true, r) else (false, s)
    | EmptyString => (false, s)
    end in
  match s1 with
  | String c r =>
      if is_digit c then
        let '(v, rest) := digits 0 s1 in
        let leading_zero :=
          Ascii.eqb c "0"%char
          && match r with String d _ => is_digit d | EmptyString => false end in
        if leading_zero || starts_number_tail rest then None
        else Some (JInt (if neg then - v else v), rest)
      else None
  | EmptyString => None
  end.

Definition unescape (c : ascii) : option ascii :=
  if Ascii.eqb c DQ then Some DQ
  else if Ascii.eqb c "\"%char then Some "\"%char
  else if Ascii.eqb c "/"%char then Some "/"%char
  else if Ascii.eqb c "b"%char then Some (ascii_of_nat 8)
  else if Ascii.eqb c "f"%char then Some (ascii_of_nat 12)
  else if Ascii.eqb c "n"%char then Some (ascii_of_nat 10)
  else if Ascii.eqb c "r"%char then Some (ascii_of_nat 13)
  else if Ascii.eqb c "t"%char then Some (ascii_of_nat 9)
  else None.

(** The characters of a string literal after its opening quote. *)
Fixpoint p_chars (s : string) : option (string * string) :=
  match s with
  | EmptyString => None
  | String c r =>
      if Ascii.eqb c DQ then Some (EmptyString, r)
      else if (nat_of_ascii c <? 32)%nat then None
      else if Ascii.eqb c "\"%char then
        match r with
        | String e r' =>
            match unescape e, p_chars r' with
            | Some c', Some (t, rest) => Some (String c' t, rest)
            | _, _ => None
            end
        | EmptyString => None
        end
      else
        match p_chars r with
        | Some (t, rest) => Some (String c t, rest)
        | None => None
        end
  end.

Definition p_literal (word : string) (v : json) (s : string)
    : option (json * string) :=
  if String.prefix word s
  then Some (v, substring (String.length word)
                  (String.length s - String.length word) s)
  else None.

(** [d[k] = v] on the items of a dict: a key met again keeps its place. *)
Fixpoint dict_set (k : string) (v : json) (fields : list (string * json))
    : list (string * json) :=
  match fields with
  | [] => [(k, v)]
  | (k', v') :: rest =>
      if String.eqb k k' then (k', v) :: rest
      else (k', v') :: dict_set k v rest
  end.

Definition dict_of (items : list (string * json)) : list (string * json) :=
  fold_left (fun d kv => dict_set (fst kv) (snd kv) d) items [].

Fixpoint p_value (fuel : nat) (s : string) : option (json * string) :=
  match fuel with
  | O => None
  | S f =>
      match skip_ws s with
      | EmptyString => None
      | String c r =>
          if Ascii.eqb c "["%char then
            match skip_ws r with
            | String d r' =>
                if Ascii.eqb d "]"%char then Some (JArr [], r')
                else match p_items f r with
                     | Some (items, rest) => Some (JArr items, rest)
                     | None => None
                     end
            | EmptyString => None
            end
          else if Ascii.eqb c "{"%char then
            match skip_ws r with
            | String d r' =>
                if Ascii.eqb d "}"%char then Some (JObj [], r')
                else match p_members f r with
                     | Some (items, rest) => Some (JObj (dict_of items), rest)
                     | None => None
                     end
            | EmptyString => None
            end
          else if Ascii.eqb c DQ then
            match p_chars r with
            | Some (t, rest) => Some (JStr t, rest)
            | None => None
            end
          else if Ascii.eqb c "t"%char then
            p_literal "true" (JBool true) (String c r)
          else if Ascii.eqb c "f"%char then
            p_literal "false" (JBool false) (String c r)
          else if Ascii.eqb c "n"%char then
            p_literal "null" JNull (String c r)
          else p_int (String c r)
      end
  end

with p_items (fuel : nat) (s : string) : option (list json * string) :=
  match fuel with
  | O => None
  | S f =>
      match p_value f s with
      | Some (v, r) =>
          match skip_ws r with
          | String c r' =>
              if Ascii.eqb c ","%char then
                match p_items f r' with
                | Some (vs, rest) => Some (v :: vs, rest)
                | None => None
                end
              else if Ascii.eqb c "]"%char then Some ([v], r')
              else None
          | EmptyString => None
          end
      | None => None
      end
  end

with p_members (fuel : nat) (s : string)
    : option (list (string * json) * string) :=
  match fuel with
  | O => None
  | S f =>
      match skip_ws s with
      | String q r =>
          if Ascii.eqb q DQ then
            match p_chars r with
            | Some (k, r1) =>
                match skip_ws r1 with
                | String c r2 =>
                    if Ascii.eqb c ":"%char then
                      match p_value f r2 with
                      | Some (v, r3) =>
                          match skip_ws r3 with
                          | String d r4 =>
                              if Ascii.eqb d ","%char then
                                match p_members f r4 with
                                | Some (kvs, rest) => Some ((k, v) :: kvs, rest)
                                | None => None
                                end
                              else if Ascii.eqb d "}"%char
                              then Some ([(k, v)], r4)
                              else None
                          | EmptyString => None
                          end
                      | None => None
                      end
                    else None
                | EmptyString => None
                end
            | None => None
            end
          else None
      | EmptyString => None
      end
  end.

(** The whole text must be one value, white space apart. *)
Definition loads (s : string) : option json :=
  match p_value (2 * String.length s + 2) s with
  | Some (v, rest) =>
      match skip_ws rest with
      | EmptyString => Some v
      | String _ _ => None
      end
  | None => None
  end.

End RefJson.

#[export] Instance ref_json : JsonLoads :=
  {| json_loads := RefJson.loads;
     loads_empty_array := eq_refl;
     loads_empty_object := eq_refl |}.

(** Responses of the model, as examples. *)
Definition quoted (s : string) : string :=
  String RefJson.DQ s ++ String RefJson.DQ "".

(** [[{"summary":"X","start_sec":9}]]. *)
Definition strict_reply : string :=
  "[{" ++ quoted "summary" ++ ":" ++ quoted "X" ++ ","
       ++ quoted "start_sec" ++ ":9}]".

(** [Sure! Here you go: [{"summary":"X","start_sec":9}] Thanks]. *)
Definition wrapped_reply : string :=
  "Sure! Here you go: " ++ strict_reply ++ " Thanks".

Definition garbage_reply : string := "I could not find any bugs, sorry.".

(** A response with braces that do not hold JSON. *)
Definition broken_reply : string := "{candidates: oops}".

(** Positions of a character in a text, in the words of the
    specification: the first and the last occurrence. *)
Definition first_index (c : ascii) (s : string) (i : nat) : Prop :=
  String.get i s = Some c /\ forall k, (k < i)%nat -> String.get k s <> Some c.

Definition last_index (c : ascii) (s : string) (i : nat) : Prop :=
  String.get i s = Some c /\ forall k, (i < k)%nat -> String.get k s <> Some c.

Definition occurs (c : ascii) (s : string) : Prop :=
  exists i, String.get i s = Some c.

(** ** Clip planner: step 4 of [app.py] *)

(** Lines 69-74: the window handed to [extract_video_clip]. *)
Definition clip_window (b : bug) : number * number :=
  let start_sec := default (Int 0) (b_start_sec b) in
  let end_sec := default (add_lit start_sec 5) (b_end_sec b) in
  let start_sec := max_zero (sub_lit start_sec 2) in
  let end_sec := add_lit end_sec 2 in
  (start_sec, end_sec).

Section Planner.

(** [extract_video_clip] on the uploaded video: the path of the clip, or
    the exception ffmpeg's failure is turned into. *)
Variable extract_video_clip : number -> number -> exn + string.

(** Lines 68-82: the clips so far and the warnings shown so far, from bug
    number [idx] on.  The warning sign that starts each message is left
    out. *)
Fixpoint plan_clips (video_clips : gmap nat string) (warnings : list string)
    (idx : nat) (bugs : list bug) : gmap nat string * list string :=
  match bugs with
  | [] => (video_clips, warnings)
  | b :: rest =>
      let '(start_sec, end_sec) := clip_window b in
      match extract_video_clip start_sec end_sec with
      | inr clip_path =>
          plan_clips (<[idx := clip_path]> video_clips) warnings (S idx) rest
      | inl e =>
          let warning :=
            "Failed to extract clip for bug "
              ++ Py.str_int (Z.of_nat idx + 1) ++ ": " ++ exn_str e in
          plan_clips video_clips (warnings ++ [warning])%list (S idx) rest
      end
  end.

End Planner.

(** The two bugs of the specification's examples. *)
Definition bug_1_3 : bug :=
  MkBug None None None (Some (Float 1)) (Some (Float 3)).

Definition bug_10 : bug := MkBug None None None (Some (Float 10)) None.

(** ** Transcript formatter: [flatten_segments_text] of [utils.py] *)

(** What a segment holds under [start], [end] and [text]; [None] when the key
    or attribute is missing. *)
Record seg_fields := MkSeg {
  seg_start : option number;
  seg_end : option number;
  seg_text : option string
}.

(** A segment is a dict (it has [get]) or an object read with [getattr]. *)
Inductive segment :=
| DictSeg (f : seg_fields)
| ObjSeg (f : seg_fields).

Fixpoint spaces (n : nat) : string :=
  match n with
  | O => EmptyString
  | S n' => String " " (spaces n')
  end.

(** [f"{n:>3}"]: the decimal digits, pushed right with spaces to three
    columns at least. *)
Definition fmt_right3 (n : Z) : string :=
  let digits := Py.str_int n in
  spaces (3 - String.length digits) ++ digits.

(** Lines 33-35 (and 38-40) with line 41: the line of one segment. *)
Definition format_fields (f : seg_fields) : exn + string :=
  match py_int (default (Int 0) (seg_start f)) with
  | inl e => inl e
  | inr start_s =>
      match py_int (default (Int (Z.max start_s 0)) (seg_end f)) with
      | inl e => inl e
      | inr end_s =>
          let text := Py.strip (default "" (seg_text f)) in
          inr ("[" ++ fmt_right3 start_s ++ "-" ++ fmt_right3 end_s ++ "s] "
                 ++ text)
      end
  end.

Definition segment_line (seg : segment) : exn + string :=
  match seg with
  | DictSeg f => format_fields f
  | ObjSeg f => format_fields f
  end.

(** Lines 28-41: the loop, appending to [lines]. *)
Fixpoint collect_lines (lines : list string) (segments : list segment)
    : exn + list string :=
  match segments with
  | [] => inr lines
  | seg :: rest =>
      match segment_line seg with
      | inl e => inl e
      | inr line => collect_lines (lines ++ [line]) rest
      end
  end.

(** Lines 25-42. *)
Definition flatten_segments_text (segments : list segment) : exn + string :=
  match collect_lines [] segments with
  | inl e => inl e
  | inr lines => inr (Py.join (String Py.LF "") lines)
  end.

(** The line of a segment as the specification words it: the seconds
    padded with zeros. *)
Definition zero_padded3 (n : Z) : string :=
  let digits := Py.str_int n in
  String.concat "" (repeat "0" (3 - String.length digits)) ++ digits.

Definition zero_padded_line (start_s end_s : Z) (text : string) : string :=
  "[" ++ zero_padded3 start_s ++ "-" ++ zero_padded3 end_s ++ "s] " ++ text.

(** Segments to evaluate the formatter on. *)
Definition seg_5_7 : segment :=
  DictSeg (MkSeg (Some (Float 5)) (Some (Float 7.75)) (Some "  hi ")).

Definition seg_open : segment :=
  ObjSeg (MkSeg (Some (Float 12.5)) None (Some "the page is blank")).

Definition fields (seg : segment) : seg_fields :=
  match seg with
  | DictSeg f => f
  | ObjSeg f => f
  end.

(** [int()] returns on the segment's start and end: they are [int]s or
    finite [float]s. *)
Definition int_times (seg : segment) : Prop :=
  exists start_s end_s,
    py_int (default (Int 0) (seg_start (fields seg))) = inr start_s /\
    py_int (default (Int (Z.max start_s 0)) (seg_end (fields seg)))
      = inr end_s.

(** [line] is the line of [seg]: start and end as integers, pushed right
    with spaces to three columns, a missing end taken as [max(start, 0)], the
    text stripped. *)
Inductive renders (seg : segment) : string -> Prop :=
| Renders start_s end_s :
    py_int (default (Int 0) (seg_start (fields seg))) = inr start_s ->
    py_int (default (Int (Z.max start_s 0)) (seg_end (fields seg)))
      = inr end_s ->
    renders seg
      ("[" ++ fmt_right3 start_s ++ "-" ++ fmt_right3 end_s ++ "s] "
         ++ Py.strip (default "" (seg_text (fields seg)))).

Fixpoint has_char (c : ascii) (s : string) : bool :=
  match s with
  | EmptyString => false
  | String d s' => Ascii.eqb d c || has_char c s'
  end.

(** ** Frame helpers: [build_second_to_frame_map] and [get_window_images]
    of [utils.py] *)

(** [sorted] on a list of [str]: the order of the code points, which is
    [String.leb]. *)
Module StringOrder <: TotalLeBool.

Definition t := string.
Definition leb := String.leb.
Definition leb_total := String.leb_total.

End StringOrder.

Module StringSort := Sort StringOrder.

(** [range(lo, hi)]. *)
Definition py_range (lo hi : Z) : list Z :=
  map (fun i => lo + Z.of_nat i) (seq 0 (Z.to_nat (hi - lo))).

(** [enumerate(l, start)]. *)
Fixpoint enumerate_from {A} (start : Z) (l : list A) : list (Z * A) :=
  match l with
  | [] => []
  | x :: rest => (start, x) :: enumerate_from (start + 1) rest
  end.

(** [os.path.join(a, b)] (POSIX). *)
Definition path_join (a b : string) : string :=
  if String.prefix "/" b then b
  else if negb (Py.truthy a) || Py.endswith a "/" then a ++ b
  else a ++ "/" ++ b.

Definition is_jpg (f : string) : bool := Py.endswith (Py.lower f) ".jpg".

Section Frames.

(** [os.listdir]: the names in a directory, or the exception for a path
    that is no directory. *)
Variable os_listdir : string -> exn + list string.

(** Lines 9-15. *)
Definition build_second_to_frame_map (frames_dir : string)
    : exn + gmap Z string :=
  match os_listdir frames_dir with
  | inl e => inl e
  | inr names =>
      let files := StringSort.sort (List.filter is_jpg names) in
      inr (fold_left
             (fun second_to_path entry =>
                <[fst entry := path_join frames_dir (snd entry)]>
                  second_to_path)
             (enumerate_from 1 files) ∅)
  end.

End Frames.

(** Lines 17-23. *)
Definition get_window_images (second_to_path : gmap Z string)
    (center_second window_radius : Z) : list string :=
  fold_left
    (fun images s =>
       match second_to_path !! s with
       | Some path => (images ++ [path])%list
       | None => images
       end)
    (py_range (center_second - window_radius)
       (center_second + window_radius + 1))
    [].

(** A directory of four frames and a text file. *)
Definition listdir_demo (d : string) : exn + list string :=
  if String.eqb d "/tmp/frames"
  then inr ["frame_0003.jpg"; "notes.txt"; "frame_0001.jpg"; "frame_0004.JPG";
            "frame_0002.jpg"]
  else inl (MkExn OtherException ("No such file or directory: " ++ d)).

(** ** Transcription: [transcribe_with_timestamps] of [transcript.py] *)

(** The [segments] attribute of a transcription: absent, [None], or a
    list. *)
Inductive segments_attr :=
| NoSegments
| NullSegments
| Segments (l : list segment).

(** What the speech-to-text call returns: its [segments], and its [text]
    when it has one. *)
Record transcription := MkTranscription {
  tr_segments : segments_attr;
  tr_text : option string
}.

Section Transcribe.

Variable E : env.

(** [client.audio.transcriptions.create] on the opened audio file. *)
Variable whisper : node -> exn + transcription.

(** Lines 9-19: the segments as returned ([None] stays [None]), the full
    text and the timestamped text. *)
Definition transcribe_with_timestamps (audio_path : string)
    : exn + (option (list segment) * string * string) :=
  match fs E audio_path with
  | None =>
      inl (MkExn OtherException ("No such file or directory: " ++ audio_path))
  | Some audio =>
      match open_err audio with
      | Some e => inl e
      | None =>
          match whisper audio with
          | inl e => inl e
          | inr transcription =>
              let segments :=
                match tr_segments transcription with
                | NoSegments => Some []
                | NullSegments => None
                | Segments l => Some l
                end in
              let full_text := default "" (tr_text transcription) in
              match segments with
              | Some (seg :: rest) =>
                  match flatten_segments_text (seg :: rest) with
                  | inl e => inl e
                  | inr timestamped => inr (segments, full_text, timestamped)
                  end
              | _ => inr (segments, full_text, full_text)
              end
          end
      end
  end.

End Transcribe.

(** An audio file, and a speech-to-text call that hears two segments. *)
Definition env_audio : env :=
  MkEnv (one_file "/tmp/video.mp4.wav" (bytes_node 64000 [])) (answers []).

Definition whisper_demo (audio : node) : exn + transcription :=
  inr (MkTranscription (Segments [seg_5_7; seg_open])
         (Some "hi the page is blank")).

Definition whisper_plain (audio : node) : exn + transcription :=
  inr (MkTranscription NullSegments (Some "hi the page is blank")).

(** A segment whose start is not a number. *)
Definition seg_nan : segment :=
  DictSeg (MkSeg (Some (Float PrimFloat.nan)) (Some (Float 3)) (Some "lost")).

(** ** The vocabulary of the statements about the uploader *)

Section UploaderVocabulary.

Variable E : env.

(** The pre-flight checks of lines 11-27 all pass for [file_path]. *)
Definition preflight_ok (file_path : string) (nd : node) : Prop :=
  fs E file_path = Some nd /\
  0 < st_size nd <= 10 * 1024 * 1024 /\
  open_err nd = None /\
  is_mp4_header (read_bytes nd 12) = true.

(** The two byte layouts of an MP4 signature, in the words of the
    specification: [ftyp] at offset 4, or the 8 bytes [00 00 00 20 ftyp] at
    the start. *)
Definition ftyp_signature (header : list byte) : Prop :=
  Py.slice 4 8 header = ftyp \/ firstn 8 header = ftyp_box32.

(** The four validation failures of the pre-flight. *)
Inductive preflight_failure (file_path : string) : Prop :=
| Fail_missing :
    fs E file_path = None -> preflight_failure file_path
| Fail_empty nd :
    fs E file_path = Some nd -> st_size nd = 0 ->
    preflight_failure file_path
| Fail_too_large nd :
    fs E file_path = Some nd -> 10 * 1024 * 1024 < st_size nd ->
    preflight_failure file_path
| Fail_signature nd :
    fs E file_path = Some nd -> ~ ftyp_signature (read_bytes nd 12) ->
    preflight_failure file_path.

End UploaderVocabulary.

(** The outcome agrees with its message: empty exactly on success. *)
Definition well_formed_outcome (r : bool * string) : Prop :=
  snd r = "" <-> fst r = true.

(** The response ends the upload with success. *)
Definition succeeds (o : post_result) : Prop :=
  match o with
  | Responds r => status_code r < 300
  | Raises _ => False
  end.

(** The response is an HTTP 4xx. *)
Definition client_error (o : post_result) : Prop :=
  match o with
  | Responds r => 400 <= status_code r < 500
  | Raises _ => False
  end.

(** An HTTP 5xx, or an exception of the network layer. *)
Definition transient (o : post_result) : Prop :=
  match o with
  | Responds r => 500 <= status_code r < 600
  | Raises _ => True
  end.

(** The world after one more attachment request. *)
Definition posted (ev : event) (w : world) : world :=
  MkWorld (S (posts w)) (trace w ++ [ev]).

Definition slept (seconds : Z) (w : world) : world :=
  MkWorld (posts w) (trace w ++ [EvSleep seconds]).

(** The events of [remaining] failed attempts in a row, the first one
    numbered [attempt]: a request each, and a sleep of [2 ^ attempt] seconds
    between two of them. *)
Fixpoint backoff_trace (ev : event) (attempt : Z) (remaining : nat)
    : list event :=
  match remaining with
  | O => []
  | S k =>
      ev :: match k with
            | O => []
            | S _ => EvSleep (2 ^ attempt) :: backoff_trace ev (attempt + 1) k
            end
  end.

(** ** The vocabulary of the statements about the filer *)

(** Jira created the ticket: a status below 300 and a JSON object as body. *)
Definition creation_succeeds (o : post_result) : Prop :=
  match o with
  | Responds r =>
      status_code r < 300 /\ exists fields', json_body r = inr (JObj fields')
  | Raises _ => False
  end.

(** No clip file is there to attach for bug [idx]: the clip map has no entry
    for it, or the path it holds is not on the disk. *)
Definition no_clip_on_disk (E : env) (video_clips : gmap nat string)
    (idx : nat) : Prop :=
  match video_clips !! idx with
  | Some video_path => fs E video_path = None
  | None => True
  end.

(** ** The vocabulary of the statements about whole runs *)

(** An event that is a call of [requests.post]. *)
Definition is_request (ev : event) : bool :=
  match ev with
  | EvAttach _ _ _ => true
  | EvCreate _ => true
  | EvSleep _ => false
  end.

Definition is_create (ev : event) : bool :=
  match ev with
  | EvCreate _ => true
  | _ => false
  end.

Definition is_sleep (ev : event) : bool :=
  match ev with
  | EvSleep _ => true
  | _ => false
  end.

(** The seconds slept in a run. *)
Fixpoint sleep_total (evs : list event) : Z :=
  match evs with
  | [] => 0
  | EvSleep seconds :: rest => seconds + sleep_total rest
  | _ :: rest => sleep_total rest
  end.

(** The calls of [requests.post] in a run. *)
Fixpoint count_requests (evs : list event) : nat :=
  match evs with
  | [] => O
  | ev :: rest => ((if is_request ev then 1 else 0) + count_requests rest)%nat
  end.

(** The world [w] after the events [evs], and nothing else. *)
Definition after (w : world) (evs : list event) : world :=
  MkWorld (posts w + count_requests evs) (trace w ++ evs).

(** An outcome after which the loop of the uploader goes on: an exception,
    or a status that is neither below 300 nor a 4xx. *)
Definition retried (o : post_result) : Prop :=
  match o with
  | Responds r =>
      300 <= status_code r /\ ~ (400 <= status_code r < 500)
  | Raises _ => True
  end.

(** The events of [k] failed attempts, each followed by its sleep, the
    first one numbered [attempt]. *)
Fixpoint failed_attempts (ev : event) (attempt : Z) (k : nat) : list event :=
  match k with
  | O => []
  | S k' => ev :: EvSleep (2 ^ attempt) :: failed_attempts ev (attempt + 1) k'
  end.

(** Jira answers 302, then the connection times out, then 204. *)
Definition env_302_timeout_204 : env :=
  MkEnv (one_file "/tmp/clip.mp4" clip_node)
    (answers [http 302 "moved"; Raises (MkExn Timeout "read timed out");
              http 204 ""]).

(** Jira answers 500, then 404. *)
Definition env_500_404 : env :=
  MkEnv (one_file "/tmp/clip.mp4" clip_node)
    (answers [http 500 "oops"; http 404 "no such issue"]).

(** Jira never answers. *)
Definition env_offline : env :=
  MkEnv (one_file "/tmp/clip.mp4" clip_node) (answers []).

(** A directory where a clip was expected. *)
Definition dir_node : node :=
  MkNode 4096 (Some (MkExn OtherException "[Errno 21] Is a directory"))
    (fun _ => x00).

Definition env_directory : env :=
  MkEnv (one_file "/tmp/clips" dir_node) (answers []).


(** All four Jira variables are set and not empty. *)
Definition configured (cfg : jira_config) : bool :=
  env_truthy (JIRA_URL cfg) && env_truthy (JIRA_TOKEN cfg)
  && env_truthy (JIRA_EMAIL cfg) && env_truthy (JIRA_PROJECT cfg).

(** Jira refuses two tickets out of three; the clip of bug 0 is on the
    disk. *)
Definition env_refusals : env :=
  MkEnv (one_file "/tmp/gone.mp4" clip_node)
    (answers [http 400 "summary is required"; created "QA-8";
              http 503 "busy"]).

(** Jira creates the ticket; the clip of bug 0 is an empty file. *)
Definition env_empty_clip : env :=
  MkEnv (one_file "/tmp/gone.mp4" (bytes_node 0 [])) (answers [created "QA-7"]).

(** Jira answers 201 with a body that has no [key]; the clip is there. *)
Definition env_no_key : env :=
  MkEnv (one_file "/tmp/gone.mp4" clip_node)
    (answers [Responds (MkResponse 201 "{}" (inr (JObj [("id", JStr "10007")])))]).

(** Jira answers 200 with a page that is not JSON. *)
Definition env_html : env :=
  MkEnv (one_file "/tmp/gone.mp4" clip_node)
    (answers [Responds (MkResponse 200 "<html>"
                (inl (MkExn OtherException "Expecting value: line 1 column 1 (char 0)")))]).

(** A line that gives a paragraph: it is not blank. *)
Definition nonblank (line : string) : bool := Py.truthy (Py.strip line).

(** A text node as [text_to_adf] should write it: typed [text], not empty,
    with no white space around it and on one line. *)
Definition clean_text (t : adf_text) : Prop :=
  text_type t = "text" /\
  text_text t <> "" /\
  Py.strip (text_text t) = text_text t /\
  has_char Py.LF (text_text t) = false.

Definition clean_paragraph (par : adf_paragraph) : Prop :=
  par_type par = "paragraph" /\
  (length (par_content par) <= 1)%nat /\
  Forall clean_text (par_content par).

(** A description of three lines with a blank one between and white space
    around. *)
Definition steps_text : string :=
  "  Expected: login " ++ String Py.LF (String Py.LF ("   " ++ String Py.LF
  "Actual: nothing  " ++ String Py.LF "")).

(** A chat client that answers [content] whatever the prompt. *)
Definition fixed_client (content : option string) : chat_client :=
  fun _ => inr content.

(** A chat client that answers with the length of its prompt. *)
Definition counting_client : chat_client :=
  fun prompt => inr (Some (Py.str_int (Z.of_nat (String.length prompt)))).

(** [{"candidates":[]}] wrapped in prose. *)
Definition wrapped_object_reply : string :=
  "Here is the JSON: {" ++ quoted "candidates" ++ ":[]} Hope it helps".

(** An extractor that fails on a window that starts at 0 and cuts every
    other clip. *)
Definition extract_demo (start_sec end_sec : number) : exn + string :=
  if gt_zero start_sec then inr "/tmp/clip.mp4"
  else inl (MkExn OtherException "ffmpeg video clip extraction failed.").

(** A bug with whole seconds. *)
Definition bug_int (start_sec end_sec : Z) : bug :=
  MkBug None None None (Some (Int start_sec)) (Some (Int end_sec)).

(* ================================================================== *)
(** * Properties *)
(* ================================================================== *)

(** Unfolding of the monad's operations and of the calls to the outside. *)
Ltac run_m :=
  cbv beta iota zeta delta
    [try_except bind ret raise os_path_exists os_path_getsize open_rb
     time_sleep log requests_post negb].

(** ** Attachment uploader *)

Section UploaderFacts.

Variable E : env.

Lemma bytes_eqb_eq (a b : list byte) : Py.bytes_eqb a b = true <-> a = b.
Proof.
  revert b; induction a as [|x a IH]; intros [|y b]; simpl; try easy.
  rewrite andb_true_iff, IH. split.
  - intros [Hxy ->]. apply Byte.byte_dec_bl in Hxy. now subst.
  - intros [= -> ->]. split; [apply Byte.byte_dec_lb|]; reflexivity.
Qed.

(** The second disjunct of the header test compares four bytes with eight:
    it never holds, and the test is [header[4:8] == b'ftyp']. *)
Lemma is_mp4_header_ftyp_at_4 (header : list byte) :
  is_mp4_header header = Py.bytes_eqb (Py.slice 4 8 header) ftyp.
Proof.
  unfold is_mp4_header.
  replace (Py.bytes_eqb (Py.slice 0 4 header) ftyp_box32) with false;
    [apply orb_false_r|].
  symmetry. apply not_true_is_false. rewrite bytes_eqb_eq. intros H.
  apply (f_equal (@length byte)) in H. unfold Py.slice in H.
  rewrite length_firstn in H. change (length ftyp_box32) with 8%nat in H. lia.
Qed.

Lemma is_mp4_header_signature (header : list byte) :
  is_mp4_header header = true <-> ftyp_signature header.
Proof.
  rewrite is_mp4_header_ftyp_at_4, bytes_eqb_eq. unfold ftyp_signature.
  split; [now left|]. intros [H|H]; [exact H|].
  unfold Py.slice.
  do 8 (destruct header as [|? header]; [discriminate H|]).
  simpl in H. injection H as -> -> -> -> -> -> -> ->. reflexivity.
Qed.

Lemma failure_outcome (prefix rest : string) (c : ascii) :
  well_formed_outcome (false, String c prefix ++ rest).
Proof. unfold well_formed_outcome; simpl. split; discriminate. Qed.

Lemma or_else_nonempty (a : option string) (c : ascii) (d : string) :
  well_formed_outcome (false, Py.or_else a (String c d)).
Proof.
  unfold well_formed_outcome; simpl.
  destruct a as [[|c' s]|]; simpl; split; discriminate.
Qed.

(** One pass through the loop body never raises. *)
Lemma upload_attempt_total key file_path filename file_size attempt
    max_retries w :
  exists r w',
    upload_attempt E key file_path filename file_size attempt max_retries w
      = (inr r, w') /\
    match r with
    | Return res => well_formed_outcome res
    | Continue _ => True
    end.
Proof.
  unfold upload_attempt. run_m.
  destruct (fs E file_path) as [nd|]; simpl;
    [destruct (open_err nd) as [e|]; simpl|].
  - destruct (exn_cls e); simpl; do 2 eexists; (split; [reflexivity|exact I]).
  - destruct (net E (posts w)) as [r|e]; simpl.
    + destruct (status_code r <? 300); simpl.
      { do 2 eexists; split; [reflexivity|]. now unfold well_formed_outcome. }
      destruct ((400 <=? status_code r) && (status_code r <? 500)); simpl;
        do 2 eexists; (split; [reflexivity|]);
        [apply failure_outcome|exact I].
    + destruct (exn_cls e); simpl; do 2 eexists; (split; [reflexivity|exact I]).
  - do 2 eexists; (split; [reflexivity|exact I]).
Qed.

Lemma retry_loop_total key file_path filename file_size max_retries
    remaining :
  forall attempt last_error w,
  exists res w',
    retry_loop E key file_path filename file_size max_retries remaining
      attempt last_error w = (inr res, w') /\
    well_formed_outcome res.
Proof.
  induction remaining as [|k IH]; intros attempt last_error w; simpl.
  - run_m. do 2 eexists; split; [reflexivity|]. apply or_else_nonempty.
  - destruct (upload_attempt_total key file_path filename file_size attempt
                max_retries w) as (r & w1 & Hr & Hwf).
    unfold bind at 1. rewrite Hr.
    destruct r as [res|le].
    + run_m. eauto.
    + destruct (attempt <? max_retries - 1); run_m; apply IH.
Qed.

(** **** Pre-flight validation *)

(** C1. Each pre-flight validation failure (the path does not exist, the
    file has 0 bytes, the file exceeds 10 MiB, the first 12 bytes carry no
    MP4 [ftyp] signature in either byte layout) makes the upload return
    [(False, message)] at once: the world is left as it was, so there is no
    network request, no sleep and no retry. *)
Theorem preflight_failure_is_terminal (key : json) (file_path : string)
    (max_retries : Z) (w : world) :
  preflight_failure E file_path ->
  exists msg,
    attach_file_to_issue E key file_path max_retries w = (inr (false, msg), w).
Proof.
  intros Hfail. unfold attach_file_to_issue.
  destruct Hfail as [Hfs | nd Hfs Hsz | nd Hfs Hsz | nd Hfs Hsig];
    run_m; rewrite Hfs; run_m.
  - eexists; reflexivity.
  - rewrite Hsz; run_m. eexists; reflexivity.
  - destruct (Z.eqb_spec (st_size nd) 0) as [H0|_]; [lia|].
    destruct (Z.ltb_spec (10 * 1024 * 1024) (st_size nd)) as [_|H1]; [|lia].
    eexists; reflexivity.
  - destruct (st_size nd =? 0); [eexists; reflexivity|].
    destruct (_ <? st_size nd); [eexists; reflexivity|].
    destruct (open_err nd); run_m; [eexists; reflexivity|].
    destruct (is_mp4_header (read_bytes nd 12)) eqn:Hh; run_m;
      [|eexists; reflexivity].
    apply is_mp4_header_signature in Hh. contradiction.
Qed.

(** **** The retry loop, one attempt at a time *)

(** A recorded error is never empty, so the final [last_error or "..."]
    returns it. *)
Lemma recorded_error_kept attempt max_retries o dflt :
  Py.or_else (Some (recorded_error attempt max_retries o)) dflt
  = recorded_error attempt max_retries o.
Proof.
  destruct o as [r|e]; [reflexivity|].
  unfold recorded_error. destruct (exn_cls e); reflexivity.
Qed.

Section Attempts.

Variables (key : json) (file_path : string) (nd : node).
Variables (max_retries : Z).
Hypothesis Hfs : fs E file_path = Some nd.
Hypothesis Hopen : open_err nd = None.

Let filename := upload_filename file_path.
Let ev := EvAttach key filename (timeout_for (st_size nd)).

Lemma attempt_succeeds attempt w :
  succeeds (net E (posts w)) ->
  upload_attempt E key file_path filename (st_size nd) attempt max_retries w
    = (inr (Return (true, "")), posted ev w).
Proof.
  unfold upload_attempt, succeeds. run_m. rewrite Hfs; simpl.
  rewrite Hopen; simpl.
  destruct (net E (posts w)) as [r|e]; [|easy]. intros Hs.
  destruct (Z.ltb_spec (status_code r) 300); [reflexivity|lia].
Qed.

Lemma attempt_client_error attempt w :
  client_error (net E (posts w)) ->
  upload_attempt E key file_path filename (st_size nd) attempt max_retries w
    = (inr (Return (false,
              recorded_error attempt max_retries (net E (posts w)))),
       posted ev w).
Proof.
  unfold upload_attempt, client_error. run_m. rewrite Hfs; simpl.
  rewrite Hopen; simpl.
  destruct (net E (posts w)) as [r|e]; [|easy]. intros Hs.
  destruct (Z.ltb_spec (status_code r) 300); [lia|].
  destruct (Z.leb_spec 400 (status_code r)); [|lia].
  destruct (Z.ltb_spec (status_code r) 500); [reflexivity|lia].
Qed.

Lemma attempt_transient attempt w :
  transient (net E (posts w)) ->
  upload_attempt E key file_path filename (st_size nd) attempt max_retries w
    = (inr (Continue (Some
              (recorded_error attempt max_retries (net E (posts w))))),
       posted ev w).
Proof.
  unfold upload_attempt, transient. run_m. rewrite Hfs; simpl.
  rewrite Hopen; simpl.
  destruct (net E (posts w)) as [r|e].
  - intros Hs.
    destruct (Z.ltb_spec (status_code r) 300); [lia|].
    destruct (Z.leb_spec 400 (status_code r)); [|lia].
    destruct (Z.ltb_spec (status_code r) 500); [lia|reflexivity].
  - intros _. simpl. destruct (exn_cls e); reflexivity.
Qed.

Lemma loop_succeeds k attempt last_error w :
  succeeds (net E (posts w)) ->
  retry_loop E key file_path filename (st_size nd) max_retries (S k)
    attempt last_error w = (inr (true, ""), posted ev w).
Proof.
  intros H. simpl. unfold bind at 1. now rewrite attempt_succeeds.
Qed.

Lemma loop_client_error k attempt last_error w :
  client_error (net E (posts w)) ->
  retry_loop E key file_path filename (st_size nd) max_retries (S k)
    attempt last_error w
  = (inr (false, recorded_error attempt max_retries (net E (posts w))),
     posted ev w).
Proof.
  intros H. simpl. unfold bind at 1. now rewrite attempt_client_error.
Qed.

(** A transient failure: sleep [2 ^ attempt] seconds if an attempt is left,
    and go round again. *)
Lemma loop_transient k attempt last_error w :
  transient (net E (posts w)) ->
  retry_loop E key file_path filename (st_size nd) max_retries (S k)
    attempt last_error w
  = retry_loop E key file_path filename (st_size nd) max_retries k
      (attempt + 1)
      (Some (recorded_error attempt max_retries (net E (posts w))))
      (if attempt <? max_retries - 1
       then slept (2 ^ attempt) (posted ev w)
       else posted ev w).
Proof.
  intros H. simpl. unfold bind at 1. rewrite attempt_transient by exact H.
  destruct (attempt <? max_retries - 1); reflexivity.
Qed.

(** Any number of attempts: when every one of them fails in a transient
    way, the loop makes them all, sleeps between them and not after the last,
    and returns the error recorded for the last. *)
Lemma retry_exhausted k :
  forall attempt last_error w,
    attempt + Z.of_nat (S k) = max_retries ->
    (forall i, (i <= k)%nat -> transient (net E (posts w + i)%nat)) ->
    retry_loop E key file_path filename (st_size nd) max_retries (S k)
      attempt last_error w
    = (inr (false,
            recorded_error (max_retries - 1) max_retries
              (net E (posts w + k)%nat)),
       MkWorld (posts w + S k)
         (trace w ++ backoff_trace ev attempt (S k))).
Proof.
  induction k as [|k IH]; intros attempt last_error w Hmax Hall.
  - rewrite loop_transient
      by (rewrite <- (Nat.add_0_r (posts w)); apply Hall; lia).
    destruct (Z.ltb_spec attempt (max_retries - 1)); [lia|].
    cbn [retry_loop]. unfold ret. rewrite recorded_error_kept.
    replace (max_retries - 1) with attempt by lia.
    rewrite !Nat.add_0_r, Nat.add_1_r. reflexivity.
  - rewrite loop_transient
      by (rewrite <- (Nat.add_0_r (posts w)); apply Hall; lia).
    destruct (Z.ltb_spec attempt (max_retries - 1)); [|lia].
    rewrite IH.
    + unfold slept, posted; cbn [posts trace].
      rewrite <- !app_assoc.
      replace (S (posts w) + S k)%nat with (posts w + S (S k))%nat by lia.
      replace (S (posts w) + k)%nat with (posts w + S k)%nat by lia.
      reflexivity.
    + lia.
    + intros i Hi. unfold slept, posted; cbn [posts].
      replace (S (posts w) + i)%nat with (posts w + S i)%nat by lia.
      apply Hall. lia.
Qed.

End Attempts.

Lemma preflight_passes key file_path nd max_retries w :
  preflight_ok E file_path nd ->
  attach_file_to_issue E key file_path max_retries w
  = retry_loop E key file_path (upload_filename file_path) (st_size nd)
      max_retries (Z.to_nat max_retries) 0 None w.
Proof.
  intros (Hfs & Hsz & Hopen & Hh).
  pose proof (retry_loop_total key file_path (upload_filename file_path)
                (st_size nd) max_retries (Z.to_nat max_retries) 0 None w)
    as (res & w' & Hrun & _).
  unfold attach_file_to_issue. run_m. rewrite Hfs; run_m.
  destruct (Z.eqb_spec (st_size nd) 0); [lia|].
  destruct (Z.ltb_spec (10 * 1024 * 1024) (st_size nd)); [lia|].
  rewrite Hopen; run_m. rewrite Hh; run_m.
  now rewrite Hrun.
Qed.

(** **** Terminal and retried failures *)

(** C2. When the pre-flight passes and the first request is answered with
    an HTTP 4xx, the upload returns [(False, message)] after exactly one
    request: the world holds one more [requests.post] and no sleep. *)
Theorem client_error_is_terminal (key : json) (file_path : string)
    (nd : node) (max_retries : Z) (w : world) :
  preflight_ok E file_path nd ->
  1 <= max_retries ->
  client_error (net E (posts w)) ->
  attach_file_to_issue E key file_path max_retries w
  = (inr (false, recorded_error 0 max_retries (net E (posts w))),
     MkWorld (S (posts w))
       (trace w ++ [EvAttach key (upload_filename file_path)
                      (timeout_for (st_size nd))])).
Proof.
  intros Hok Hn Hc. rewrite (preflight_passes _ _ nd) by exact Hok.
  destruct Hok as (Hfs & _ & Hopen & _).
  destruct (Z.to_nat max_retries) as [|k] eqn:Hk; [lia|].
  now rewrite (loop_client_error key file_path nd max_retries Hfs Hopen).
Qed.

(** C3. With [max_retries = 3], an HTTP 5xx or an exception of the network
    layer is retried, with a sleep of [2 ^ attempt] seconds between attempts
    (1 s after attempt 0, 2 s after attempt 1, none after the last); the first
    status below 300 ends the upload with [(True, "")]; and when all three
    attempts fail the result is [(False, m)] with [m] the error recorded for
    the last attempt. *)
Theorem upload_retries_with_backoff (key : json) (file_path : string)
    (nd : node) (w : world) :
  preflight_ok E file_path nd ->
  let ev := EvAttach key (upload_filename file_path)
              (timeout_for (st_size nd)) in
  let o0 := net E (posts w) in
  let o1 := net E (S (posts w)) in
  let o2 := net E (S (S (posts w))) in
  let run := attach_file_to_issue E key file_path 3 w in
  (succeeds o0 ->
     run = (inr (true, ""), MkWorld (S (posts w)) (trace w ++ [ev]))) /\
  (transient o0 -> succeeds o1 ->
     run = (inr (true, ""),
            MkWorld (S (S (posts w))) (trace w ++ [ev; EvSleep 1; ev]))) /\
  (transient o0 -> transient o1 -> succeeds o2 ->
     run = (inr (true, ""),
            MkWorld (S (S (S (posts w))))
              (trace w ++ [ev; EvSleep 1; ev; EvSleep 2; ev]))) /\
  (transient o0 -> transient o1 -> transient o2 ->
     run = (inr (false, recorded_error 2 3 o2),
            MkWorld (S (S (S (posts w))))
              (trace w ++ [ev; EvSleep 1; ev; EvSleep 2; ev]))).
Proof.
  intros Hok ev o0 o1 o2 run. subst run.
  rewrite (preflight_passes _ _ nd) by exact Hok.
  destruct Hok as (Hfs & _ & Hopen & _).
  change (Z.to_nat 3) with 3%nat.
  pose proof (loop_succeeds key file_path nd 3 Hfs Hopen) as Lok.
  pose proof (loop_transient key file_path nd 3 Hfs Hopen) as Lgo.
  fold ev in Lok, Lgo.
  repeat split.
  - intros H0. rewrite Lok by exact H0. reflexivity.
  - intros H0 H1. rewrite Lgo by exact H0.
    change (0 <? 3 - 1) with true; cbv iota.
    rewrite Lok by exact H1.
    unfold posted, slept; cbn [posts trace]. now rewrite <- !app_assoc.
  - intros H0 H1 H2. rewrite Lgo by exact H0.
    change (0 <? 3 - 1) with true; cbv iota.
    rewrite Lgo by exact H1.
    change (0 + 1 <? 3 - 1) with true; cbv iota.
    rewrite Lok by exact H2.
    unfold posted, slept; cbn [posts trace]. now rewrite <- !app_assoc.
  - intros H0 H1 H2. rewrite Lgo by exact H0.
    change (0 <? 3 - 1) with true; cbv iota.
    rewrite Lgo by exact H1.
    change (0 + 1 <? 3 - 1) with true; cbv iota.
    rewrite Lgo by exact H2.
    change (0 + 1 + 1 <? 3 - 1) with false; cbv iota.
    unfold posted, slept; cbn [posts trace retry_loop]. unfold ret.
    rewrite recorded_error_kept, <- !app_assoc. reflexivity.
Qed.

(** C9. Whatever the path, the file system and the answers or exceptions of
    the network layer, the upload never raises: it returns a pair
    [(success, message)], and [message] is empty exactly when [success] is
    true. *)
Theorem attach_never_raises (key : json) (file_path : string)
    (max_retries : Z) (w : world) :
  exists success message w',
    attach_file_to_issue E key file_path max_retries w
      = (inr (success, message), w') /\
    (message = "" <-> success = true).
Proof.
  unfold attach_file_to_issue. run_m.
  destruct (fs E file_path) as [nd|]; run_m;
    [|do 3 eexists; split; [reflexivity|split; discriminate]].
  destruct (st_size nd =? 0);
    [do 3 eexists; split; [reflexivity|split; discriminate]|].
  destruct (_ <? st_size nd);
    [do 3 eexists; split; [reflexivity|split; discriminate]|].
  destruct (open_err nd); run_m;
    [do 3 eexists; split; [reflexivity|split; discriminate]|].
  destruct (is_mp4_header (read_bytes nd 12)); run_m;
    [|do 3 eexists; split; [reflexivity|split; discriminate]].
  destruct (retry_loop_total key file_path (upload_filename file_path)
              (st_size nd) max_retries (Z.to_nat max_retries) 0 None w)
    as ([b msg] & w' & -> & Hwf).
  exists b, msg, w'. split; [reflexivity|exact Hwf].
Qed.

End UploaderFacts.

Lemma preflight_failure_is_terminal_witness :
  (exists msg, attach_file_to_issue env_no_file (JStr "QA-1")
                 "/tmp/clip.mp4" 3 world0 = (inr (false, msg), world0)) /\
  (exists msg, attach_file_to_issue env_empty_file (JStr "QA-1")
                 "/tmp/clip.mp4" 3 world0 = (inr (false, msg), world0)) /\
  (exists msg, attach_file_to_issue env_11_mib (JStr "QA-1")
                 "/tmp/clip.mp4" 3 world0 = (inr (false, msg), world0)) /\
  (exists msg, attach_file_to_issue env_wav (JStr "QA-1")
                 "/tmp/clip.mp4" 3 world0 = (inr (false, msg), world0)).
Proof.
  repeat split; apply preflight_failure_is_terminal.
  - apply Fail_missing. reflexivity.
  - apply (Fail_empty _ _ (bytes_node 0 [])); reflexivity.
  - apply (Fail_too_large _ _ (bytes_node 11534336 mp4_head));
      [reflexivity | simpl; lia].
  - apply (Fail_signature _ _ (bytes_node 2092 wav_head)); [reflexivity|].
    intros [H|H]; vm_compute in H; discriminate H.
Defined.

Lemma clip_preflight_ok (net : nat -> post_result) :
  preflight_ok (MkEnv (one_file "/tmp/clip.mp4" clip_node) net)
    "/tmp/clip.mp4" clip_node.
Proof.
  repeat split; try reflexivity; simpl; lia.
Defined.

Lemma client_error_is_terminal_witness :
  attach_file_to_issue env_400 (JStr "QA-1") "/tmp/clip.mp4" 3 world0
  = (inr (false, "HTTP 400: bad request"),
     MkWorld 1 [EvAttach (JStr "QA-1") "clip.mp4" 60]).
Proof.
  apply (client_error_is_terminal env_400 (JStr "QA-1") "/tmp/clip.mp4"
           clip_node 3 world0).
  - apply clip_preflight_ok.
  - lia.
  - simpl. lia.
Defined.

Lemma upload_retries_with_backoff_witness :
  attach_file_to_issue env_503_503_200 (JStr "QA-1") "/tmp/clip.mp4" 3 world0
  = (inr (true, ""),
     MkWorld 3 [EvAttach (JStr "QA-1") "clip.mp4" 60; EvSleep 1;
                EvAttach (JStr "QA-1") "clip.mp4" 60; EvSleep 2;
                EvAttach (JStr "QA-1") "clip.mp4" 60]).
Proof.
  destruct (upload_retries_with_backoff env_503_503_200 (JStr "QA-1")
              "/tmp/clip.mp4" clip_node world0 (clip_preflight_ok _))
    as (_ & _ & H & _).
  apply H; simpl; lia.
Defined.

(** ** Ticket filer *)

Lemma lstrip_all_space (s : string) :
  all_space s = true -> Py.lstrip s = "".
Proof.
  induction s as [|c s IH]; simpl; [reflexivity|].
  intros [Hc Hs]%andb_true_iff. rewrite Hc. exact (IH Hs).
Qed.

(** C8, as the code has it. [text_to_adf("")] is the document with an empty
    content list; for a whitespace-only text that is not empty the content
    list holds exactly one paragraph node, whose own content is empty
    (lines 107-112 add it when no line gave a paragraph). *)
Theorem text_to_adf_blank (text : string) :
  all_space text = true ->
  text_to_adf text
  = MkDoc 1 "doc"
      match text with
      | EmptyString => []
      | String _ _ => [MkParagraph "paragraph" []]
      end.
Proof.
  intros Hsp. destruct text as [|c text]; [reflexivity|].
  unfold text_to_adf. cbn [Py.truthy negb]. unfold Py.strip.
  rewrite (lstrip_all_space _ Hsp). reflexivity.
Qed.

Lemma text_to_adf_blank_witness :
  text_to_adf "" = MkDoc 1 "doc" [] /\
  text_to_adf blank_text = MkDoc 1 "doc" [MkParagraph "paragraph" []].
Proof.
  split.
  - apply (text_to_adf_blank ""). reflexivity.
  - apply (text_to_adf_blank blank_text). reflexivity.
Defined.

(** C8 as stated fails: the whitespace-only text does not give a document
    with zero paragraph nodes. *)
Lemma text_to_adf_whitespace_counterexample :
  ~ (length (doc_content (text_to_adf "")) = 0%nat /\
     length (doc_content (text_to_adf blank_text)) = 0%nat).
Proof.
  intros [_ H]. vm_compute in H. discriminate H.
Qed.

Section FilerFacts.

Variable E : env.

(** With no clip file to attach, filing a bug that Jira accepts is the
    creation request and nothing else. *)
Lemma file_issue_without_clip (project_key : string)
    (video_clips : gmap nat string) (errors : list report_entry)
    (idx : nat) (b : bug) (w : world) :
  creation_succeeds (net E (posts w)) ->
  no_clip_on_disk E video_clips idx ->
  file_issue E project_key video_clips errors idx b w
  = (inr errors, posted (EvCreate (issue_payload project_key b)) w).
Proof.
  unfold creation_succeeds, no_clip_on_disk, file_issue, resp_json, json_get.
  run_m. destruct (net E (posts w)) as [resp|e]; [|easy].
  intros (Hst & fields' & Hjson) Hclip.
  destruct (Z.leb_spec 300 (status_code resp)); [lia|].
  rewrite Hjson. run_m.
  destruct (json_truthy _); [|reflexivity].
  destruct (video_clips !! idx) as [video_path|]; [|reflexivity].
  rewrite Hclip. reflexivity.
Qed.

(** C10. A bug whose index is in the clip map, but whose clip file no
    longer exists when the ticket is filed: the ticket is created, no
    attachment request is made (the only new event is the creation request)
    and the error list is returned as it was, with no warning and no error
    for the missing clip. *)
Theorem missing_clip_is_skipped (project_key : string)
    (video_clips : gmap nat string) (errors : list report_entry)
    (idx : nat) (b : bug) (w : world) (video_path : string) :
  creation_succeeds (net E (posts w)) ->
  video_clips !! idx = Some video_path ->
  fs E video_path = None ->
  file_issue E project_key video_clips errors idx b w
  = (inr errors,
     MkWorld (S (posts w))
       (trace w ++ [EvCreate (issue_payload project_key b)])).
Proof.
  intros Hnet Hclip Hgone. apply file_issue_without_clip; [exact Hnet|].
  unfold no_clip_on_disk. now rewrite Hclip.
Qed.

(** The same over a whole run: when Jira accepts every bug and no clip of
    the map is on the disk, the filer makes one creation request for each bug,
    no attachment request, and reports nothing. *)
Lemma file_issues_without_clips (project_key : string)
    (video_clips : gmap nat string) (errors : list report_entry)
    (bugs : list bug) :
  forall (idx : nat) (w : world),
    (forall i, (i < length bugs)%nat ->
               creation_succeeds (net E (posts w + i)%nat)) ->
    (forall i, no_clip_on_disk E video_clips i) ->
    file_issues E project_key video_clips errors idx bugs w
    = (inr errors,
       MkWorld (posts w + length bugs)
         (trace w ++ map (fun b => EvCreate (issue_payload project_key b))
                       bugs)).
Proof.
  induction bugs as [|b bugs IH]; intros idx w Hnet Hclips; simpl.
  - unfold ret. rewrite Nat.add_0_r, app_nil_r. now destruct w.
  - unfold bind at 1. rewrite file_issue_without_clip.
    + rewrite IH.
      * unfold posted; simpl. rewrite <- app_assoc. simpl.
        do 2 f_equal. lia.
      * intros i Hi. unfold posted; cbn [posts].
        replace (S (posts w) + i)%nat with (posts w + S i)%nat by lia.
        apply Hnet. simpl. lia.
      * exact Hclips.
    + rewrite <- (Nat.add_0_r (posts w)). apply Hnet. simpl. lia.
    + apply Hclips.
Qed.

End FilerFacts.

Lemma missing_clip_is_skipped_witness :
  file_issue env_clip_gone "QA" clips_demo [] 0 bug_demo world0
  = (inr [], MkWorld 1 [EvCreate (issue_payload "QA" bug_demo)]).
Proof.
  apply (missing_clip_is_skipped env_clip_gone "QA" clips_demo [] 0%nat
           bug_demo world0 "/tmp/gone.mp4").
  - simpl. split; [lia|]. eexists. reflexivity.
  - reflexivity.
  - reflexivity.
Defined.

(** The whole filer on that run: one bug, its clip gone from the disk. *)
Example create_issues_clip_gone :
  create_issues env_clip_gone cfg_demo [bug_demo] (Some clips_demo) world0
  = (inr [], MkWorld 1 [EvCreate (issue_payload "QA" bug_demo)]).
Proof. reflexivity. Qed.

(** When the clip is on the disk, it is attached after the creation. *)
Example create_issues_clip_there :
  create_issues
    (MkEnv (one_file "/tmp/gone.mp4" clip_node)
       (answers [created "QA-7"; http 200 ""]))
    cfg_demo [bug_demo] (Some clips_demo) world0
  = (inr [],
     MkWorld 2 [EvCreate (issue_payload "QA" bug_demo);
                EvAttach (JStr "QA-7") "gone.mp4" 60]).
Proof. reflexivity. Qed.

(** ** Bug extractor *)

(** [find] and [rfind] give the first and the last occurrence. *)
Lemma find_char_spec (c : ascii) (s : string) (i : nat) :
  Py.find_char c s = Some i <-> first_index c s i.
Proof.
  unfold first_index. revert i.
  induction s as [|d s IH]; intros i; simpl.
  - split; [discriminate|]. intros [H _]. destruct i; discriminate H.
  - destruct (Ascii.eqb_spec c d) as [->|Hne].
    + split.
      * intros [= <-]. split; [reflexivity|]. intros k Hk. lia.
      * intros [Hi Hfirst]. destruct i as [|i]; [reflexivity|].
        exfalso. apply (Hfirst 0%nat); [lia|reflexivity].
    + split.
      * destruct (Py.find_char c s) as [j|] eqn:Hf; [|discriminate].
        intros [= <-]. destruct (proj1 (IH j) eq_refl) as [Hj Hfirst].
        split; [exact Hj|].
        intros [|k] Hk; simpl; [congruence|]. apply Hfirst. lia.
      * intros [Hi Hfirst]. destruct i as [|i]; simpl in Hi; [congruence|].
        rewrite (proj2 (IH i)); [reflexivity|].
        split; [exact Hi|]. intros k Hk. apply (Hfirst (S k)). lia.
Qed.

Lemma rfind_char_None (c : ascii) (s : string) :
  Py.rfind_char c s = None -> forall k, String.get k s <> Some c.
Proof.
  induction s as [|d s IH]; simpl; intros Hr k.
  - destruct k; discriminate.
  - destruct (Py.rfind_char c s); [discriminate|].
    destruct (Ascii.eqb_spec c d) as [->|Hne]; [discriminate|].
    destruct k as [|k]; simpl; [congruence|]. apply IH. reflexivity.
Qed.

Lemma rfind_char_spec (c : ascii) (s : string) (i : nat) :
  Py.rfind_char c s = Some i <-> last_index c s i.
Proof.
  unfold last_index. revert i.
  induction s as [|d s IH]; intros i; simpl.
  - split; [discriminate|]. intros [H _]. destruct i; discriminate H.
  - destruct (Py.rfind_char c s) as [j|] eqn:Hf.
    + destruct (proj1 (IH j) eq_refl) as [Hj Hlast]. split.
      * intros [= <-]. split; [exact Hj|].
        intros [|k] Hk; [lia|]. simpl. apply Hlast. lia.
      * intros [Hi Hlast']. destruct i as [|i].
        { exfalso. apply (Hlast' (S j)); [lia|exact Hj]. }
        simpl in Hi.
        destruct (Nat.lt_trichotomy i j) as [Hlt|[->|Hgt]]; [|reflexivity|].
        -- exfalso. apply (Hlast' (S j)); [lia|exact Hj].
        -- exfalso. apply (Hlast i); [lia|exact Hi].
    + pose proof (rfind_char_None c s Hf) as Hnone.
      destruct (Ascii.eqb_spec c d) as [->|Hne].
      * split.
        -- intros [= <-]. split; [reflexivity|].
           intros [|k] Hk; [lia|]. simpl. apply Hnone.
        -- intros [Hi _]. destruct i as [|i]; [reflexivity|].
           exfalso. exact (Hnone i Hi).
      * split; [discriminate|].
        intros [Hi _]. destruct i as [|i]; simpl in Hi; [congruence|].
        exfalso. exact (Hnone i Hi).
Qed.

Lemma find_char_None (c : ascii) (s : string) :
  Py.find_char c s = None <-> ~ occurs c s.
Proof.
  split.
  - intros Hf [k Hk]. revert k Hk.
    induction s as [|d s IH]; simpl in *; intros k Hk.
    + destruct k; discriminate.
    + destruct (Ascii.eqb_spec c d) as [->|Hne]; [discriminate|].
      destruct (Py.find_char c s); [discriminate|].
      destruct k as [|k]; simpl in Hk; [congruence|]. exact (IH eq_refl k Hk).
  - intros Hno. destruct (Py.find_char c s) as [j|] eqn:Hf; [|reflexivity].
    apply find_char_spec in Hf as [Hj _]. exfalso. apply Hno. now exists j.
Qed.

Lemma rfind_char_None_iff (c : ascii) (s : string) :
  Py.rfind_char c s = None <-> ~ occurs c s.
Proof.
  split.
  - intros Hf [k Hk]. exact (rfind_char_None c s Hf k Hk).
  - intros Hno. destruct (Py.rfind_char c s) as [j|] eqn:Hf; [|reflexivity].
    apply rfind_char_spec in Hf as [Hj _]. exfalso. apply Hno. now exists j.
Qed.

Section ExtractorFacts.

Context {J : JsonLoads}.

(** C4. The bug extractor's parse of a raw response: a response that is
    valid JSON gives its parsed value; otherwise, when the response holds a
    [[] and a []], the text from the first [[] to the last []] is parsed, and
    the result is its value, or the empty list when that fails too; otherwise
    the result is the empty list.  The parse is a total function: it never
    raises. *)
Theorem parse_bug_list_recovery (raw : string) :
  (forall v, json_loads raw = Some v -> parse_bug_list raw = v) /\
  (json_loads raw = None ->
   forall i j,
     first_index "["%char raw i -> last_index "]"%char raw j ->
     parse_bug_list raw
     = match json_loads (Py.str_slice i (j + 1) raw) with
       | Some v => v
       | None => JArr []
       end) /\
  (json_loads raw = None ->
   ~ (occurs "["%char raw /\ occurs "]"%char raw) ->
   parse_bug_list raw = JArr []).
Proof.
  unfold parse_bug_list. split; [|split].
  - intros v ->. reflexivity.
  - intros -> i j Hi%find_char_spec Hj%rfind_char_spec.
    rewrite Hi, Hj. reflexivity.
  - intros -> Hno.
    destruct (Py.find_char "["%char raw) as [i|] eqn:Hi;
      [destruct (Py.rfind_char "]"%char raw) as [j|] eqn:Hj|].
    + exfalso. apply Hno. split.
      * apply find_char_spec in Hi as [Hi _]. now exists i.
      * apply rfind_char_spec in Hj as [Hj _]. now exists j.
    + now rewrite loads_empty_array.
    + now rewrite loads_empty_array.
Qed.

(** C5, as the code has it. When the strict parse of a raw response fails:
    if the response holds a [{] and a [}] and the text from the first [{] to
    the last [}] does not parse either, the candidate mode returns the
    sentinel [{"candidates": [], "notes": "Parsing failed"}]; if a brace is
    missing, the code parses the literal [{}] and returns the empty dict.
    The parse is a total function: it never raises. *)
Theorem parse_candidates_recovery (raw : string) :
  json_loads raw = None ->
  (forall i j,
     first_index "{"%char raw i -> last_index "}"%char raw j ->
     json_loads (Py.str_slice i (j + 1) raw) = None ->
     parse_candidates raw = parsing_failed) /\
  (~ (occurs "{"%char raw /\ occurs "}"%char raw) ->
   parse_candidates raw = JObj []).
Proof.
  intros Hraw. unfold parse_candidates. rewrite Hraw. split.
  - intros i j Hi%find_char_spec Hj%rfind_char_spec Hslice.
    rewrite Hi, Hj, Hslice. reflexivity.
  - intros Hno.
    destruct (Py.find_char "{"%char raw) as [i|] eqn:Hi;
      [destruct (Py.rfind_char "}"%char raw) as [j|] eqn:Hj|].
    + exfalso. apply Hno. split.
      * apply find_char_spec in Hi as [Hi _]. now exists i.
      * apply rfind_char_spec in Hj as [Hj _]. now exists j.
    + now rewrite loads_empty_object.
    + now rewrite loads_empty_object.
Qed.

End ExtractorFacts.

Lemma parse_bug_list_recovery_witness :
  parse_bug_list strict_reply
    = JArr [JObj [("summary", JStr "X"); ("start_sec", JInt 9)]] /\
  parse_bug_list wrapped_reply
    = JArr [JObj [("summary", JStr "X"); ("start_sec", JInt 9)]] /\
  parse_bug_list garbage_reply = JArr [].
Proof.
  destruct (parse_bug_list_recovery strict_reply) as (Hstrict & _ & _).
  destruct (parse_bug_list_recovery wrapped_reply) as (_ & Hslice & _).
  destruct (parse_bug_list_recovery garbage_reply) as (_ & _ & Hnone).
  split; [|split].
  - apply Hstrict. reflexivity.
  - rewrite (Hslice eq_refl 19%nat 49%nat).
    + reflexivity.
    + apply find_char_spec. reflexivity.
    + apply rfind_char_spec. reflexivity.
  - apply Hnone; [reflexivity|].
    intros [H _]. apply find_char_None in H; [exact H|reflexivity].
Defined.

Lemma parse_candidates_recovery_witness :
  parse_candidates broken_reply = parsing_failed /\
  parse_candidates garbage_reply = JObj [].
Proof.
  destruct (parse_candidates_recovery (J:=ref_json) broken_reply eq_refl)
    as [Hslice _].
  destruct (parse_candidates_recovery (J:=ref_json) garbage_reply eq_refl)
    as [_ Hnone].
  split.
  - apply (Hslice 0%nat 17%nat).
    + apply find_char_spec. reflexivity.
    + apply rfind_char_spec. reflexivity.
    + reflexivity.
  - apply Hnone. intros [H _]. apply find_char_None in H; [exact H|reflexivity].
Defined.

(** C5 as stated fails: on a response without braces both parses of the
    claim fail (there is no text between braces to parse), and the result is
    the empty dict, not the sentinel. *)
Lemma parse_candidates_sentinel_counterexample :
  ~ (forall raw : string,
       json_loads raw = None ->
       (forall i j,
          first_index "{"%char raw i -> last_index "}"%char raw j ->
          json_loads (Py.str_slice i (j + 1) raw) = None) ->
       parse_candidates raw = parsing_failed).
Proof.
  intros H. specialize (H garbage_reply eq_refl).
  assert (Hno : forall i j,
            first_index "{"%char garbage_reply i ->
            last_index "}"%char garbage_reply j ->
            json_loads (Py.str_slice i (j + 1) garbage_reply) = None).
  { intros i j Hi%find_char_spec _. discriminate Hi. }
  specialize (H Hno). vm_compute in H. discriminate H.
Qed.

(** ** Clip planner *)

Lemma max_zero_int (n : Z) : max_zero (Int n) = Int (Z.max 0 n).
Proof.
  unfold max_zero, gt_zero. destruct (Z.ltb_spec 0 n); f_equal; lia.
Qed.

Section PlannerFacts.

Variable extract_video_clip : number -> number -> exn + string.

(** The loop leaves the entries of earlier bugs alone. *)
Lemma plan_clips_earlier (bugs : list bug) :
  forall video_clips warnings idx j,
    (j < idx)%nat ->
    fst (plan_clips extract_video_clip video_clips warnings idx bugs) !! j
    = video_clips !! j.
Proof.
  induction bugs as [|b bugs IH]; intros video_clips warnings idx j Hj;
    cbn [plan_clips]; [reflexivity|].
  destruct (clip_window b) as [start_sec end_sec].
  destruct (extract_video_clip start_sec end_sec) as [e|clip_path].
  - apply IH. lia.
  - rewrite IH by lia. apply lookup_insert_ne. lia.
Qed.

(** A failed extraction does not stop the loop: bug number [k] has an entry
    in the clip map exactly when its own extraction succeeded, and the entry
    is the clip cut at the bug's window. *)
Lemma plan_clips_entry (bugs : list bug) :
  forall video_clips warnings idx k b,
    bugs !! k = Some b ->
    video_clips !! (idx + k)%nat = None ->
    fst (plan_clips extract_video_clip video_clips warnings idx bugs)
      !! (idx + k)%nat
    = match extract_video_clip (fst (clip_window b)) (snd (clip_window b)) with
      | inr clip_path => Some clip_path
      | inl _ => None
      end.
Proof.
  induction bugs as [|b0 bugs IH]; intros video_clips warnings idx k b Hk Hfree;
    [discriminate Hk|].
  cbn [plan_clips]. destruct k as [|k]; simpl in Hk.
  - injection Hk as ->. rewrite Nat.add_0_r in *.
    destruct (clip_window b) as [start_sec end_sec]; cbn [fst snd].
    destruct (extract_video_clip start_sec end_sec) as [e|clip_path];
      rewrite plan_clips_earlier by lia; [exact Hfree|].
    apply lookup_insert_eq.
  - replace (idx + S k)%nat with (S idx + k)%nat in * by lia.
    destruct (clip_window b0) as [start_sec end_sec].
    destruct (extract_video_clip start_sec end_sec) as [e|clip_path];
      apply IH; try exact Hk; [exact Hfree|].
    rewrite lookup_insert_ne by lia. exact Hfree.
Qed.

End PlannerFacts.

(** C6. The window of a bug record is
    [(max(0, start_sec - 2), end_sec + 2)], where a missing [end_sec] is taken
    as [start_sec + 5] before the padding. *)
Theorem clip_window_padded (b : bug) (start_sec : number) :
  b_start_sec b = Some start_sec ->
  clip_window b
  = (max_zero (sub_lit start_sec 2),
     add_lit (match b_end_sec b with
              | Some end_sec => end_sec
              | None => add_lit start_sec 5
              end) 2).
Proof.
  intros Hs. unfold clip_window. rewrite Hs. simpl.
  destruct (b_end_sec b); reflexivity.
Qed.

(** The two examples: [{start_sec: 1.0, end_sec: 3.0}] gives [(0, 5.0)], the
    start being the [int] 0 of [max], equal to [0.0]; [{start_sec: 10.0}]
    gives [(8.0, 17.0)]. *)
Lemma clip_window_padded_witness :
  clip_window bug_1_3 = (Int 0, Float 5) /\
  num_eqb (Int 0) (Float 0) = true /\
  clip_window bug_10 = (Float 8, Float 17).
Proof.
  split; [|split].
  - rewrite (clip_window_padded bug_1_3 (Float 1) eq_refl). reflexivity.
  - reflexivity.
  - rewrite (clip_window_padded bug_10 (Float 10) eq_refl). reflexivity.
Defined.

(** ** Transcript formatter *)

(** [int()] on a float cuts towards zero: the result has the sign of the
    float, and its absolute value is the integer part of [m * 2 ^ e]. *)
Lemma float_trunc_towards_zero (x : float) (z : Z) sign m e :
  Prim2SF x = S754_finite sign m e ->
  float_trunc x = Some z ->
  (if sign then z <= 0 else 0 <= z) /\
  (0 <= e -> Z.abs z = Z.pos m * 2 ^ e) /\
  (e < 0 ->
   Z.abs z * 2 ^ (- e) <= Z.pos m < (Z.abs z + 1) * 2 ^ (- e)).
Proof.
  intros HSF. unfold float_trunc. rewrite HSF.
  destruct (Z.leb_spec 0 e) as [He|He]; intros [= <-].
  - assert (0 <= Z.pos m * 2 ^ e) by (apply Z.mul_nonneg_nonneg; lia).
    destruct sign; (split; [lia|split; [intros _; lia|lia]]).
  - assert (Hp : 0 < 2 ^ (- e)) by (apply Z.pow_pos_nonneg; lia).
    pose proof (Z.div_pos (Z.pos m) (2 ^ (- e)) ltac:(lia) Hp) as Hq.
    pose proof (Z.mul_div_le (Z.pos m) (2 ^ (- e)) Hp) as Hlo.
    pose proof (Z.mul_succ_div_gt (Z.pos m) (2 ^ (- e)) Hp) as Hhi.
    destruct sign; (split; [lia|split; [lia|intros _]]).
    + rewrite Z.abs_opp, Z.abs_eq by exact Hq. lia.
    + rewrite Z.abs_eq by exact Hq. lia.
Qed.

Lemma split_no_sep (sep : ascii) (p : string) :
  has_char sep p = false -> Py.split sep p = [p].
Proof.
  induction p as [|c p IH]; simpl; [reflexivity|].
  intros [Hc Hp]%orb_false_iff. rewrite Hc, (IH Hp). reflexivity.
Qed.

Lemma split_app_sep (sep : ascii) (p r : string) :
  has_char sep p = false ->
  Py.split sep (p ++ String sep r) = p :: Py.split sep r.
Proof.
  induction p as [|c p IH]; simpl.
  - intros _. now rewrite Ascii.eqb_refl.
  - intros [Hc Hp]%orb_false_iff. rewrite Hc, (IH Hp). reflexivity.
Qed.

(** Joining lines that hold no line feed and splitting again gives the lines
    back. *)
Lemma split_join (lines : list string) :
  lines <> [] ->
  Forall (fun l => has_char Py.LF l = false) lines ->
  Py.split Py.LF (Py.join (String Py.LF "") lines) = lines.
Proof.
  intros Hne Hall. induction Hall as [|l rest Hl Hrest IH]; [contradiction|].
  destruct rest as [|l' rest].
  - apply split_no_sep, Hl.
  - change (Py.join (String Py.LF "") (l :: l' :: rest))
      with (l ++ String Py.LF (Py.join (String Py.LF "") (l' :: rest))).
    rewrite split_app_sep by exact Hl. f_equal. apply IH. discriminate.
Qed.

Lemma segment_line_renders (seg : segment) (line : string) :
  renders seg line -> segment_line seg = inr line.
Proof.
  intros [start_s end_s Hs He].
  destruct seg as [f|f]; simpl in *; unfold format_fields;
    rewrite Hs, He; reflexivity.
Qed.

Lemma collect_lines_renders (segments : list segment) (lines : list string) :
  Forall2 renders segments lines ->
  forall acc, collect_lines acc segments = inr (acc ++ lines)%list.
Proof.
  induction 1 as [|seg line segments lines Hr _ IH]; intros acc; simpl.
  - now rewrite app_nil_r.
  - rewrite (segment_line_renders _ _ Hr), IH, <- app_assoc. reflexivity.
Qed.

Lemma int_times_renders (seg : segment) :
  int_times seg -> exists line, renders seg line.
Proof.
  intros (start_s & end_s & Hs & He). eexists. exact (Renders seg _ _ Hs He).
Qed.

(** C7, as the code has it. The empty sequence gives the empty string.  For
    segments, dicts or objects, whose start and end are [int]s or finite
    [float]s, the output is the lines of the segments, one for each segment
    and in their order, joined by line feeds; the line of a segment is
    [[<start>-<end>s] <text>] with start and end cut to integers, pushed right
    with spaces (not zeros) to three columns, a missing end taken as
    [max(start, 0)], and the text stripped; and when no such line holds a line
    feed, the lines of the output are exactly these lines. *)
Theorem flatten_segments_text_lines (segments : list segment) :
  flatten_segments_text [] = inr "" /\
  (Forall int_times segments ->
   exists lines,
     Forall2 renders segments lines /\
     flatten_segments_text segments
       = inr (Py.join (String Py.LF "") lines) /\
     (segments <> [] ->
      Forall (fun l => has_char Py.LF l = false) lines ->
      Py.split Py.LF (Py.join (String Py.LF "") lines) = lines)).
Proof.
  split; [reflexivity|]. intros Hall.
  assert (Hlines : exists lines, Forall2 renders segments lines).
  { induction Hall as [|seg rest Hseg _ [lines IH]]; [now exists []|].
    destruct (int_times_renders seg Hseg) as [line Hline].
    exists (line :: lines). now constructor. }
  destruct Hlines as [lines Hlines]. exists lines.
  split; [exact Hlines|split].
  - unfold flatten_segments_text.
    now rewrite (collect_lines_renders _ _ Hlines []).
  - intros Hne. apply split_join. intros ->.
    apply Forall2_nil_inv_r in Hlines. contradiction.
Qed.

Lemma flatten_segments_text_lines_witness :
  exists lines,
    Forall2 renders [seg_5_7; seg_open] lines /\
    flatten_segments_text [seg_5_7; seg_open]
      = inr (Py.join (String Py.LF "") lines) /\
    ([seg_5_7; seg_open] <> [] ->
     Forall (fun l => has_char Py.LF l = false) lines ->
     Py.split Py.LF (Py.join (String Py.LF "") lines) = lines).
Proof.
  apply (proj2 (flatten_segments_text_lines [seg_5_7; seg_open])).
  repeat constructor.
  - exists 5, 7. split; reflexivity.
  - exists 12, 12. split; reflexivity.
Defined.

(** What the formatter returns on the two segments: 7.75 is cut to 7, the
    missing end is the start, the columns are filled with spaces. *)
Example flatten_two_segments :
  flatten_segments_text [seg_5_7; seg_open]
  = inr ("[  5-  7s] hi" ++ String Py.LF "[ 12- 12s] the page is blank").
Proof. reflexivity. Qed.

Example int_cuts_towards_zero :
  py_int (Float 7.75) = inr 7 /\ py_int (Float (-7.75)) = inr (-7) /\
  py_int (Float 0.5) = inr 0 /\ py_int (Int (-3)) = inr (-3).
Proof. repeat split; reflexivity. Qed.

(** C7 as stated fails: the seconds are not padded with zeros. *)
Lemma flatten_zero_padding_counterexample :
  flatten_segments_text [seg_5_7] <> inr (zero_padded_line 5 7 "hi").
Proof.
  intros H. vm_compute in H. discriminate H.
Qed.

(* ================================================================== *)
(** * Further properties of the code *)
(* ================================================================== *)

(** ** Attachment uploader: runs of any length *)

Lemma after_nil (w : world) : after w [] = w.
Proof.
  unfold after. simpl. rewrite Nat.add_0_r, app_nil_r. now destruct w.
Qed.

Lemma count_requests_app (evs evs' : list event) :
  count_requests (evs ++ evs')
  = (count_requests evs + count_requests evs')%nat.
Proof.
  induction evs as [|ev evs IH]; simpl; [reflexivity|]. rewrite IH. lia.
Qed.

Lemma after_app (w : world) (evs evs' : list event) :
  after (after w evs) evs' = after w (evs ++ evs').
Proof.
  unfold after; cbn [posts trace].
  rewrite count_requests_app, <- app_assoc. f_equal. lia.
Qed.

Lemma sleep_total_app (evs evs' : list event) :
  sleep_total (evs ++ evs') = sleep_total evs + sleep_total evs'.
Proof.
  induction evs as [|[| |seconds] evs IH]; simpl; lia.
Qed.

Section UploaderRuns.

Variable E : env.
Variables (key : json) (file_path filename : string).
Variables (file_size max_retries : Z).

Let ev := EvAttach key filename (timeout_for file_size).

(** One attempt makes one request, or none when the file cannot be opened. *)
Lemma upload_attempt_frame attempt w :
  let w' := snd (upload_attempt E key file_path filename file_size attempt
                   max_retries w) in
  w' = w \/ w' = after w [ev].
Proof.
  unfold upload_attempt. run_m.
  destruct (fs E file_path) as [nd|]; cbn [fst snd].
  - destruct (open_err nd) as [e|]; run_m.
    + left. now destruct (exn_cls e).
    + right. unfold after; cbn [count_requests is_request ev posts trace].
      rewrite Nat.add_1_r.
      destruct (net E (posts w)) as [r|e].
      * destruct (status_code r <? 300); [reflexivity|].
        now destruct ((400 <=? status_code r) && (status_code r <? 500)).
      * now destruct (exn_cls e).
  - left. reflexivity.
Qed.

(** What a run of the loop adds to the world: requests and sleeps only, at
    most one request for each remaining iteration, and sleeps that sum to at
    most [2 ^ (max_retries - 1) - 2 ^ attempt] seconds. *)
Lemma retry_loop_frame remaining :
  forall attempt last_error w,
    0 <= attempt ->
    attempt + Z.of_nat remaining = max_retries ->
    exists evs,
      snd (retry_loop E key file_path filename file_size max_retries
             remaining attempt last_error w) = after w evs /\
      Forall (fun e => e = ev \/ is_sleep e = true) evs /\
      (count_requests evs <= remaining)%nat /\
      sleep_total evs <= Z.max 0 (2 ^ (max_retries - 1) - 2 ^ attempt).
Proof.
  induction remaining as [|k IH]; intros attempt last_error w Ha Hmax.
  - exists []. rewrite after_nil. repeat split; [constructor|simpl; lia..].
  - cbn [retry_loop]. unfold bind at 1.
    pose proof (upload_attempt_frame attempt w) as Hframe.
    pose proof (upload_attempt_total E key file_path filename file_size
                  attempt max_retries w) as (r & w1 & Hrun & _).
    rewrite Hrun in *. cbn [snd] in Hframe.
    assert (Hw1 : exists evs1, w1 = after w evs1 /\
                    Forall (fun e => e = ev \/ is_sleep e = true) evs1 /\
                    (count_requests evs1 <= 1)%nat /\
                    sleep_total evs1 = 0).
    { destruct Hframe as [->| ->].
      - exists []. rewrite after_nil. repeat split; [constructor|simpl; lia].
      - exists [ev]. repeat split; [|simpl; lia].
        constructor; [now left|constructor]. }
    destruct Hw1 as (evs1 & -> & Hc1 & Hr1 & Hs1).
    destruct r as [res|le].
    + exists evs1. run_m. cbn [snd]. repeat split; try assumption; lia.
    + destruct (Z.ltb_spec attempt (max_retries - 1)) as [Hlt|Hge].
      * run_m.
        change (MkWorld (posts (after w evs1))
                  (trace (after w evs1) ++ [EvSleep (2 ^ attempt)])%list)
          with (slept (2 ^ attempt) (after w evs1)).
        assert (Hslept : slept (2 ^ attempt) (after w evs1)
                         = after w (evs1 ++ [EvSleep (2 ^ attempt)])%list).
        { unfold after, slept; cbn [posts trace].
          rewrite count_requests_app, <- app_assoc.
          cbn [count_requests is_request]. f_equal. lia. }
        rewrite Hslept.
        destruct (IH (attempt + 1) le
                    (after w (evs1 ++ [EvSleep (2 ^ attempt)])%list)
                    ltac:(lia) ltac:(lia))
          as (evs & -> & Hc & Hr & Hs).
        exists ((evs1 ++ [EvSleep (2 ^ attempt)]) ++ evs)%list.
        rewrite after_app. split; [reflexivity|]. split; [|split].
        -- repeat (apply Forall_app; split); try assumption.
           constructor; [now right|constructor].
        -- rewrite !count_requests_app. cbn [count_requests is_request].
           lia.
        -- rewrite !sleep_total_app. cbn [sleep_total].
           assert (2 ^ (attempt + 1) <= 2 ^ (max_retries - 1))
             by (apply Z.pow_le_mono_r; lia).
           replace (2 ^ (attempt + 1)) with (2 * 2 ^ attempt) in *
             by (rewrite Z.pow_add_r by lia; lia).
           lia.
      * run_m. destruct k as [|k]; [|lia].
        cbn [retry_loop]. unfold ret; cbn [snd].
        exists evs1. repeat split; try assumption; lia.
Qed.

End UploaderRuns.

Lemma timeout_for_small (file_size : Z) :
  0 <= file_size <= 10 * 1024 * 1024 -> timeout_for file_size = 60.
Proof.
  intros Hsz. unfold timeout_for.
  assert (file_size / (1024 * 1024) <= 10)
    by (apply Z.div_le_upper_bound; lia).
  lia.
Qed.

(** X1. Whatever the file, the network and [max_retries], an upload only
    adds to the world: at most [max_retries] requests, each of them the
    attachment request for the normalised file name with a timeout of 60
    seconds (a file that passes the pre-flight has at most 10 MiB, so the
    timeout never grows with the size), and sleeps that sum to at most
    [2 ^ (max_retries - 1) - 1] seconds (3 seconds for the default of 3). *)
Theorem upload_is_bounded (E : env) (key : json) (file_path : string)
    (max_retries : Z) (w : world) :
  exists evs,
    snd (attach_file_to_issue E key file_path max_retries w) = after w evs /\
    Forall (fun e => is_request e = true ->
                     e = EvAttach key (upload_filename file_path) 60) evs /\
    (count_requests evs <= Z.to_nat max_retries)%nat /\
    sleep_total evs <= Z.max 0 (2 ^ (max_retries - 1) - 1).
Proof.
  assert (Hnone : exists evs,
            w = after w evs /\
            Forall (fun e => is_request e = true ->
                     e = EvAttach key (upload_filename file_path) 60) evs /\
            (count_requests evs <= Z.to_nat max_retries)%nat /\
            sleep_total evs <= Z.max 0 (2 ^ (max_retries - 1) - 1)).
  { exists []. rewrite after_nil. repeat split; [constructor|simpl; lia..]. }
  unfold attach_file_to_issue. run_m.
  destruct (fs E file_path) as [nd|]; run_m; [|exact Hnone].
  destruct (Z.eqb_spec (st_size nd) 0) as [|Hne]; [exact Hnone|].
  destruct (Z.ltb_spec (10 * 1024 * 1024) (st_size nd)) as [|Hle];
    [exact Hnone|].
  destruct (open_err nd); run_m; [exact Hnone|].
  destruct (is_mp4_header (read_bytes nd 12)); run_m; [|exact Hnone].
  clear Hnone.
  destruct (retry_loop_total E key file_path (upload_filename file_path)
              (st_size nd) max_retries (Z.to_nat max_retries) 0 None w)
    as (res & w' & Hrun & _).
  destruct (Z.le_gt_cases 0 max_retries) as [Hn|Hn].
  - destruct (retry_loop_frame E key file_path (upload_filename file_path)
                (st_size nd) max_retries (Z.to_nat max_retries) 0 None w
                ltac:(lia) ltac:(lia)) as (evs & Hw & Hev & Hreq & Hsl).
    rewrite Hrun in *. cbn [snd] in *. exists evs.
    split; [exact Hw|]. split; [|split; [exact Hreq|exact Hsl]].
    eapply Forall_impl; [exact Hev|]. intros e [->|Hs] Hr.
    + destruct (Z.le_gt_cases 0 (st_size nd)) as [Hpos|Hneg].
      * now rewrite timeout_for_small by lia.
      * unfold timeout_for.
        assert (st_size nd / (1024 * 1024) < 0)
          by (apply Z.div_lt_upper_bound; lia).
        f_equal. lia.
    + destruct e; discriminate.
  - replace (Z.to_nat max_retries) with O in * by lia.
    cbn [retry_loop] in *. unfold ret in *. cbn [snd].
    exists []. rewrite after_nil. repeat split; [constructor|simpl; lia..].
Qed.

Lemma backoff_trace_failed (ev : event) (k : nat) :
  forall attempt,
    backoff_trace ev attempt (S k)
    = (failed_attempts ev attempt k ++ [ev])%list.
Proof.
  induction k as [|k IH]; intros attempt; [reflexivity|].
  change (backoff_trace ev attempt (S (S k)))
    with (ev :: EvSleep (2 ^ attempt) :: backoff_trace ev (attempt + 1) (S k)).
  now rewrite IH.
Qed.

Lemma count_requests_failed (key : json) (filename : string) (t : Z) (k : nat) :
  forall attempt,
    count_requests (failed_attempts (EvAttach key filename t) attempt k) = k.
Proof.
  induction k as [|k IH]; intros attempt; simpl; [reflexivity|].
  now rewrite IH.
Qed.

Section UploaderOutcomes.

Variable E : env.
Variables (key : json) (file_path : string) (nd : node).
Variable max_retries : Z.
Hypothesis Hok : preflight_ok E file_path nd.

Let filename := upload_filename file_path.
Let ev := EvAttach key filename (timeout_for (st_size nd)).

Lemma attempt_retried attempt w :
  retried (net E (posts w)) ->
  upload_attempt E key file_path filename (st_size nd) attempt max_retries w
  = (inr (Continue (Some
            (recorded_error attempt max_retries (net E (posts w))))),
     posted ev w).
Proof.
  destruct Hok as (Hfs & _ & Hopen & _).
  unfold upload_attempt, retried. run_m. rewrite Hfs; run_m.
  rewrite Hopen; run_m.
  destruct (net E (posts w)) as [r|e].
  - intros [Hs Hn4].
    destruct (Z.ltb_spec (status_code r) 300); [lia|].
    destruct (Z.leb_spec 400 (status_code r));
      destruct (Z.ltb_spec (status_code r) 500); try reflexivity. lia.
  - intros _. simpl. destruct (exn_cls e); reflexivity.
Qed.

Lemma loop_retried k attempt last_error w :
  retried (net E (posts w)) ->
  retry_loop E key file_path filename (st_size nd) max_retries (S k)
    attempt last_error w
  = retry_loop E key file_path filename (st_size nd) max_retries k
      (attempt + 1)
      (Some (recorded_error attempt max_retries (net E (posts w))))
      (if attempt <? max_retries - 1
       then slept (2 ^ attempt) (posted ev w)
       else posted ev w).
Proof.
  intros H. simpl. unfold bind at 1. rewrite attempt_retried by exact H.
  destruct (attempt <? max_retries - 1); reflexivity.
Qed.

(** After [k] failures that are retried, the loop stands before attempt
    number [attempt + k], having made [k] requests and slept after each. *)
Lemma retry_loop_skips k :
  forall m attempt last_error w,
    (k <= m)%nat ->
    attempt + Z.of_nat (S m) = max_retries ->
    (forall i, (i < k)%nat -> retried (net E (posts w + i)%nat)) ->
    exists last_error',
      retry_loop E key file_path filename (st_size nd) max_retries (S m)
        attempt last_error w
      = retry_loop E key file_path filename (st_size nd) max_retries
          (S m - k) (attempt + Z.of_nat k) last_error'
          (after w (failed_attempts ev attempt k)).
Proof.
  induction k as [|k IH]; intros m attempt last_error w Hk Hmax Hall.
  - exists last_error. cbn [failed_attempts].
    now rewrite after_nil, Z.add_0_r, Nat.sub_0_r.
  - destruct m as [|m]; [lia|].
    assert (H0 : retried (net E (posts w)))
      by (rewrite <- (Nat.add_0_r (posts w)); apply Hall; lia).
    rewrite loop_retried by exact H0.
    destruct (Z.ltb_spec attempt (max_retries - 1)); [|lia].
    destruct (IH m (attempt + 1)
                (Some (recorded_error attempt max_retries (net E (posts w))))
                (slept (2 ^ attempt) (posted ev w)))
      as [le' Hrun]; [lia|lia| |].
    + intros i Hi. unfold slept, posted; cbn [posts].
      replace (S (posts w) + i)%nat with (posts w + S i)%nat by lia.
      apply Hall. lia.
    + exists le'. rewrite Hrun. f_equal; [lia|].
      unfold after, slept, posted; cbn [posts trace failed_attempts].
      cbn [count_requests is_request ev].
      rewrite <- !app_assoc. cbn [app]. f_equal. lia.
Qed.

Lemma posted_after_failed (w : world) (k : nat) :
  posted ev (after w (failed_attempts ev 0 k))
  = MkWorld (posts w + S k) (trace w ++ backoff_trace ev 0 (S k)).
Proof.
  rewrite backoff_trace_failed. unfold posted, after; cbn [posts trace].
  unfold ev. rewrite count_requests_failed, <- app_assoc.
  f_equal. lia.
Qed.

(** X2. For any [max_retries]: when the first [k] attempts fail in a way that
    is retried (an exception, or a status from 300 on that is not a 4xx) and
    attempt number [k] gets a status below 300, the upload returns
    [(True, "")] after [k + 1] requests, having slept [2 ^ i] seconds after
    failure number [i]. *)
Theorem upload_succeeds_after_failures (k : nat) (w : world) :
  (k < Z.to_nat max_retries)%nat ->
  (forall i, (i < k)%nat -> retried (net E (posts w + i)%nat)) ->
  succeeds (net E (posts w + k)%nat) ->
  attach_file_to_issue E key file_path max_retries w
  = (inr (true, ""),
     MkWorld (posts w + S k) (trace w ++ backoff_trace ev 0 (S k))).
Proof.
  intros Hk Hfail Hgood.
  rewrite (preflight_passes _ _ _ nd) by exact Hok.
  destruct (Z.to_nat max_retries) as [|m] eqn:Hm; [lia|]. fold filename.
  destruct (retry_loop_skips k m 0 None w) as [le' ->]; [lia|lia|exact Hfail|].
  destruct Hok as (Hfs & _ & Hopen & _).
  replace (S m - k)%nat with (S (m - k)) by lia.
  rewrite (loop_succeeds E key file_path nd max_retries Hfs Hopen).
  - fold filename. fold ev. now rewrite posted_after_failed.
  - unfold after; cbn [posts]. unfold ev.
    now rewrite count_requests_failed.
Qed.

(** X3. For any [max_retries]: a 4xx at attempt number [k], after [k]
    failures that were retried, ends the upload at once with the error of that
    response; no request and no sleep follows it. *)
Theorem upload_stops_at_client_error (k : nat) (w : world) :
  (k < Z.to_nat max_retries)%nat ->
  (forall i, (i < k)%nat -> retried (net E (posts w + i)%nat)) ->
  client_error (net E (posts w + k)%nat) ->
  attach_file_to_issue E key file_path max_retries w
  = (inr (false,
          recorded_error (Z.of_nat k) max_retries (net E (posts w + k)%nat)),
     MkWorld (posts w + S k) (trace w ++ backoff_trace ev 0 (S k))).
Proof.
  intros Hk Hfail Hbad.
  rewrite (preflight_passes _ _ _ nd) by exact Hok.
  destruct (Z.to_nat max_retries) as [|m] eqn:Hm; [lia|]. fold filename.
  destruct (retry_loop_skips k m 0 None w) as [le' ->]; [lia|lia|exact Hfail|].
  destruct Hok as (Hfs & _ & Hopen & _).
  replace (S m - k)%nat with (S (m - k)) by lia.
  assert (Hposts : posts (after w (failed_attempts ev 0 k)) = (posts w + k)%nat).
  { unfold after; cbn [posts]. unfold ev. now rewrite count_requests_failed. }
  rewrite (loop_client_error E key file_path nd max_retries Hfs Hopen)
    by (rewrite Hposts; exact Hbad).
  fold filename. fold ev. now rewrite posted_after_failed, Hposts.
Qed.

(** X4. For any [max_retries] from 1 on: when every attempt fails in a way
    that is retried, the upload makes exactly [max_retries] requests, sleeps
    between them and not after the last, and returns [(False, m)] with [m] the
    error recorded for the last attempt. *)
Theorem upload_exhausted (w : world) :
  1 <= max_retries ->
  (forall i, (i < Z.to_nat max_retries)%nat ->
             retried (net E (posts w + i)%nat)) ->
  attach_file_to_issue E key file_path max_retries w
  = (inr (false,
          recorded_error (max_retries - 1) max_retries
            (net E (posts w + (Z.to_nat max_retries - 1))%nat)),
     MkWorld (posts w + Z.to_nat max_retries)
       (trace w ++ backoff_trace ev 0 (Z.to_nat max_retries))).
Proof.
  intros Hn Hfail.
  rewrite (preflight_passes _ _ _ nd) by exact Hok.
  destruct (Z.to_nat max_retries) as [|m] eqn:Hm; [lia|]. fold filename.
  destruct (retry_loop_skips m m 0 None w) as [le' ->];
    [lia|lia|intros i Hi; apply Hfail; lia|].
  replace (S m - m)%nat with 1%nat by lia.
  assert (Hposts : posts (after w (failed_attempts ev 0 m)) = (posts w + m)%nat).
  { unfold after; cbn [posts]. unfold ev. now rewrite count_requests_failed. }
  rewrite loop_retried by (rewrite Hposts; apply Hfail; lia).
  destruct (Z.ltb_spec (0 + Z.of_nat m) (max_retries - 1)); [lia|].
  cbn [retry_loop]. unfold ret. rewrite recorded_error_kept, Hposts.
  rewrite posted_after_failed.
  replace (0 + Z.of_nat m) with (max_retries - 1) by lia.
  now replace (S m - 1)%nat with m by lia.
Qed.

End UploaderOutcomes.

Lemma upload_succeeds_after_failures_witness :
  attach_file_to_issue env_302_timeout_204 (JStr "QA-1") "/tmp/clip.mp4" 5
    world0
  = (inr (true, ""),
     MkWorld 3 [EvAttach (JStr "QA-1") "clip.mp4" 60; EvSleep 1;
                EvAttach (JStr "QA-1") "clip.mp4" 60; EvSleep 2;
                EvAttach (JStr "QA-1") "clip.mp4" 60]).
Proof.
  apply (upload_succeeds_after_failures env_302_timeout_204 (JStr "QA-1")
           "/tmp/clip.mp4" clip_node 5 (clip_preflight_ok _) 2 world0).
  - simpl. lia.
  - intros [|[|i]] Hi; simpl; lia.
  - simpl. lia.
Defined.

Lemma upload_stops_at_client_error_witness :
  attach_file_to_issue env_500_404 (JStr "QA-1") "/tmp/clip.mp4" 3 world0
  = (inr (false, "HTTP 404: no such issue"),
     MkWorld 2 [EvAttach (JStr "QA-1") "clip.mp4" 60; EvSleep 1;
                EvAttach (JStr "QA-1") "clip.mp4" 60]).
Proof.
  apply (upload_stops_at_client_error env_500_404 (JStr "QA-1")
           "/tmp/clip.mp4" clip_node 3 (clip_preflight_ok _) 1 world0).
  - simpl. lia.
  - intros [|i] Hi; simpl; lia.
  - simpl. lia.
Defined.

Lemma upload_exhausted_witness :
  attach_file_to_issue env_offline (JStr "QA-1") "/tmp/clip.mp4" 2 world0
  = (inr (false, "Network error (attempt 2/2): connection refused"),
     MkWorld 2 [EvAttach (JStr "QA-1") "clip.mp4" 60; EvSleep 1;
                EvAttach (JStr "QA-1") "clip.mp4" 60]).
Proof.
  apply (upload_exhausted env_offline (JStr "QA-1") "/tmp/clip.mp4"
           clip_node 2 (clip_preflight_ok _) world0).
  - lia.
  - intros [|[|i]] Hi; simpl in *; try exact I; lia.
Defined.

(** ** Attachment uploader: what a success rests on *)

Section UploaderSuccess.

Variable E : env.
Variables (key : json) (file_path filename : string).
Variables (file_size max_retries : Z).

Lemma upload_attempt_success attempt w msg w' :
  upload_attempt E key file_path filename file_size attempt max_retries w
    = (inr (Return (true, msg)), w') ->
  succeeds (net E (posts w)) /\ posts w' = S (posts w).
Proof.
  unfold upload_attempt, succeeds. run_m.
  destruct (fs E file_path) as [nd|]; run_m; [|discriminate].
  destruct (open_err nd) as [e|]; run_m.
  { destruct (exn_cls e); discriminate. }
  destruct (net E (posts w)) as [r|e].
  - destruct (Z.ltb_spec (status_code r) 300).
    + intros [= _ <-]. now split.
    + destruct ((400 <=? status_code r) && (status_code r <? 500));
        discriminate.
  - destruct (exn_cls e); discriminate.
Qed.

Lemma upload_attempt_posts attempt w :
  (posts w
   <= posts (snd (upload_attempt E key file_path filename file_size attempt
                    max_retries w)))%nat.
Proof.
  destruct (upload_attempt_frame E key file_path filename file_size
              max_retries attempt w) as [-> | ->]; [lia|].
  unfold after; cbn [posts]. lia.
Qed.

Lemma retry_loop_success remaining :
  forall attempt last_error w msg w',
    retry_loop E key file_path filename file_size max_retries remaining
      attempt last_error w = (inr (true, msg), w') ->
    (posts w < posts w')%nat /\ succeeds (net E (pred (posts w'))).
Proof.
  induction remaining as [|k IH]; intros attempt last_error w msg w'.
  - cbn [retry_loop]. unfold ret. discriminate.
  - cbn [retry_loop]. unfold bind at 1.
    pose proof (upload_attempt_posts attempt w) as Hposts.
    destruct (upload_attempt E key file_path filename file_size attempt
                max_retries w) as [[e|[res|le]] w1] eqn:Hrun;
      cbn [snd] in Hposts.
    + discriminate.
    + unfold ret. intros [= -> <-].
      apply upload_attempt_success in Hrun as [Hs Hp].
      rewrite Hp. split; [lia|exact Hs].
    + destruct (attempt <? max_retries - 1); run_m; intros Hloop;
        apply IH in Hloop as [Hlt Hs]; cbn [posts] in Hlt;
        (split; [lia|exact Hs]).
Qed.

End UploaderSuccess.

(** X5. The upload reports success only when Jira accepted the file: if it
    returns [(True, _)], it made at least one request, and its last request
    was answered with a status below 300. *)
Theorem upload_success_means_accepted (E : env) (key : json)
    (file_path : string) (max_retries : Z) (w : world) (msg : string) :
  fst (attach_file_to_issue E key file_path max_retries w)
    = inr (true, msg) ->
  let w' := snd (attach_file_to_issue E key file_path max_retries w) in
  (posts w < posts w')%nat /\ succeeds (net E (pred (posts w'))).
Proof.
  unfold attach_file_to_issue. run_m.
  destruct (fs E file_path) as [nd|]; run_m; [|discriminate].
  destruct (st_size nd =? 0); [discriminate|].
  destruct (_ <? st_size nd); [discriminate|].
  destruct (open_err nd); run_m; [discriminate|].
  destruct (is_mp4_header (read_bytes nd 12)); run_m; [|discriminate].
  destruct (retry_loop E key file_path (upload_filename file_path)
              (st_size nd) max_retries (Z.to_nat max_retries) 0 None w)
    as [[e|res] w'] eqn:Hrun; cbn [fst snd]; [discriminate|].
  intros [= ->].
  exact (retry_loop_success E key file_path _ _ _ _ _ _ _ _ _ Hrun).
Qed.

Lemma upload_success_means_accepted_witness :
  (posts world0
   < posts (snd (attach_file_to_issue env_503_503_200 (JStr "QA-1")
                   "/tmp/clip.mp4" 3 world0)))%nat /\
  succeeds
    (net env_503_503_200
       (pred (posts (snd (attach_file_to_issue env_503_503_200 (JStr "QA-1")
                            "/tmp/clip.mp4" 3 world0))))).
Proof.
  apply (upload_success_means_accepted env_503_503_200 (JStr "QA-1")
           "/tmp/clip.mp4" 3 world0 "").
  reflexivity.
Defined.

(** ** Attachment uploader: the name sent to Jira *)

Lemma string_length_app (a b : string) :
  String.length (a ++ b) = (String.length a + String.length b)%nat.
Proof. induction a as [|c a IH]; simpl; [reflexivity|]. now rewrite IH. Qed.

Lemma substring_all (s : string) : substring 0 (String.length s) s = s.
Proof. induction s as [|c s IH]; simpl; [reflexivity|]. now rewrite IH. Qed.

Lemma substring_app_tail (a b : string) :
  substring (String.length a) (String.length b) (a ++ b) = b.
Proof. induction a as [|c a IH]; simpl; [apply substring_all|exact IH]. Qed.

Lemma endswith_app (a b : string) : Py.endswith (a ++ b) b = true.
Proof.
  unfold Py.endswith. rewrite string_length_app.
  replace (String.length a + String.length b - String.length b)%nat
    with (String.length a) by lia.
  rewrite substring_app_tail, String.eqb_refl, andb_true_r.
  apply Nat.leb_le. lia.
Qed.

Lemma lower_app (a b : string) :
  Py.lower (a ++ b) = Py.lower a ++ Py.lower b.
Proof. induction a as [|c a IH]; simpl; [reflexivity|]. now rewrite IH. Qed.

Lemma has_char_app (c : ascii) (a b : string) :
  has_char c (a ++ b) = has_char c a || has_char c b.
Proof.
  induction a as [|d a IH]; simpl; [reflexivity|].
  now rewrite IH, orb_assoc.
Qed.

Lemma has_char_substring (c : ascii) (s : string) :
  has_char c s = false ->
  forall n m, has_char c (substring n m s) = false.
Proof.
  induction s as [|d s IH]; intros Hs n m.
  - now destruct n, m.
  - simpl in Hs. apply orb_false_iff in Hs as [Hd Hs].
    destruct n as [|n]; [destruct m as [|m]|]; simpl; [reflexivity| |].
    + now rewrite Hd, (IH Hs).
    + apply IH, Hs.
Qed.

Lemma rfind_char_None_has_char (c : ascii) (s : string) :
  Py.rfind_char c s = None -> has_char c s = false.
Proof.
  induction s as [|d s IH]; simpl; [reflexivity|].
  destruct (Py.rfind_char c s); [discriminate|].
  destruct (Ascii.eqb_spec c d) as [->|Hne]; [discriminate|].
  intros _. rewrite (IH eq_refl), orb_false_r.
  apply Ascii.eqb_neq. congruence.
Qed.

Lemma basename_no_slash (p : string) :
  has_char "/"%char (Py.basename p) = false.
Proof.
  unfold Py.basename. induction p as [|d p IH]; [reflexivity|].
  cbn [Py.rfind_char].
  destruct (Py.rfind_char "/"%char p) as [i|] eqn:Hr.
  - exact IH.
  - pose proof (rfind_char_None_has_char _ _ Hr) as Hp.
    destruct (Ascii.eqb_spec "/"%char d) as [<-|Hne].
    + cbn [String.length Nat.sub substring]. rewrite Nat.sub_0_r.
      now rewrite substring_all.
    + cbn [has_char]. rewrite Hp, orb_false_r.
      apply Ascii.eqb_neq. congruence.
Qed.

(** X6. The file name sent to Jira is a bare name (it holds no slash) and
    ends in [.mp4], whatever the case of its letters: a name that already ends
    so is kept, any other has its last extension replaced, or [.mp4] added
    when it has none. *)
Theorem upload_filename_is_mp4 (file_path : string) :
  Py.endswith (Py.lower (upload_filename file_path)) ".mp4" = true /\
  has_char "/"%char (upload_filename file_path) = false /\
  (Py.endswith (Py.lower (Py.basename file_path)) ".mp4" = true ->
   upload_filename file_path = Py.basename file_path).
Proof.
  unfold upload_filename.
  pose proof (basename_no_slash file_path) as Hbase.
  destruct (Py.endswith (Py.lower (Py.basename file_path)) ".mp4") eqn:Hend;
    cbn [negb].
  - repeat split; assumption.
  - split; [|split; [|discriminate]].
    + rewrite lower_app. apply endswith_app.
    + rewrite has_char_app. unfold Py.rsplit1_head.
      destruct (Py.rfind_char "."%char (Py.basename file_path));
        [rewrite has_char_substring by exact Hbase|rewrite Hbase];
        reflexivity.
Qed.

Example upload_filenames :
  upload_filename "/tmp/rec/Bug 1.MOV" = "Bug 1.mp4" /\
  upload_filename "/tmp/clip.MP4" = "clip.MP4" /\
  upload_filename "clip" = "clip.mp4" /\
  upload_filename "/tmp/a.b/" = ".mp4".
Proof. repeat split; reflexivity. Qed.

(** ** Attachment uploader: edges of the pre-flight and of the bound *)

(** X7. With [max_retries] of zero or less the loop body never runs: a file
    that passes the pre-flight is not sent at all, and the upload returns
    [(False, "Upload failed after all retries")]. *)
Theorem upload_without_attempts (E : env) (key : json) (file_path : string)
    (nd : node) (max_retries : Z) (w : world) :
  preflight_ok E file_path nd ->
  max_retries <= 0 ->
  attach_file_to_issue E key file_path max_retries w
  = (inr (false, "Upload failed after all retries"), w).
Proof.
  intros Hok Hn. rewrite (preflight_passes _ _ _ nd) by exact Hok.
  replace (Z.to_nat max_retries) with O by lia. reflexivity.
Qed.

Lemma upload_without_attempts_witness :
  attach_file_to_issue env_503_503_200 (JStr "QA-1") "/tmp/clip.mp4" 0 world0
  = (inr (false, "Upload failed after all retries"), world0).
Proof.
  apply (upload_without_attempts env_503_503_200 (JStr "QA-1")
           "/tmp/clip.mp4" clip_node 0 world0 (clip_preflight_ok _)).
  lia.
Defined.

(** X8. A path that exists but cannot be opened (a directory, a file
    without read permission) and has a size between 1 byte and 10 MiB: the
    exception of [open] is caught by the outer handler, the upload returns
    [(False, "Exception: ...")] with the text of the exception, and no
    request is made. *)
Theorem unreadable_file_is_reported (E : env) (key : json)
    (file_path : string) (nd : node) (e : exn) (max_retries : Z) (w : world) :
  fs E file_path = Some nd ->
  0 < st_size nd <= 10 * 1024 * 1024 ->
  open_err nd = Some e ->
  attach_file_to_issue E key file_path max_retries w
  = (inr (false, "Exception: " ++ exn_str e), w).
Proof.
  intros Hfs Hsz Hopen. unfold attach_file_to_issue. run_m.
  rewrite Hfs; run_m.
  destruct (Z.eqb_spec (st_size nd) 0); [lia|].
  destruct (Z.ltb_spec (10 * 1024 * 1024) (st_size nd)); [lia|].
  rewrite Hopen. reflexivity.
Qed.

Lemma unreadable_file_is_reported_witness :
  attach_file_to_issue env_directory (JStr "QA-1") "/tmp/clips" 3 world0
  = (inr (false, "Exception: [Errno 21] Is a directory"), world0).
Proof.
  apply (unreadable_file_is_reported env_directory (JStr "QA-1") "/tmp/clips"
           dir_node (MkExn OtherException "[Errno 21] Is a directory") 3
           world0).
  - reflexivity.
  - simpl. lia.
  - reflexivity.
Defined.

(** ** Ticket filer: whole runs *)



(** An upload returns a well-formed outcome and adds no creation request. *)
Lemma attach_frame (E : env) (key : json) (file_path : string)
    (max_retries : Z) (w : world) :
  exists res evs,
    attach_file_to_issue E key file_path max_retries w
      = (inr res, after w evs) /\
    well_formed_outcome res /\
    Forall (fun e => is_create e = false) evs.
Proof.
  assert (Hnone : forall msg c,
            exists res evs,
              (inr (false, String c msg) : exn + bool * string, w)
                = (inr res, after w evs) /\
              well_formed_outcome res /\
              Forall (fun e => is_create e = false) evs).
  { intros msg c. exists (false, String c msg), [].
    rewrite after_nil. repeat split; try discriminate. constructor. }
  unfold attach_file_to_issue. run_m.
  destruct (fs E file_path) as [nd|]; run_m; [|apply Hnone].
  destruct (st_size nd =? 0); [apply Hnone|].
  destruct (_ <? st_size nd); [apply Hnone|].
  destruct (open_err nd); run_m; [apply Hnone|].
  destruct (is_mp4_header (read_bytes nd 12)); run_m; [|apply Hnone].
  clear Hnone.
  destruct (retry_loop_total E key file_path (upload_filename file_path)
              (st_size nd) max_retries (Z.to_nat max_retries) 0 None w)
    as (res & w' & Hrun & Hwf).
  rewrite Hrun. exists res.
  destruct (Z.le_gt_cases 0 max_retries) as [Hn|Hn].
  - destruct (retry_loop_frame E key file_path (upload_filename file_path)
                (st_size nd) max_retries (Z.to_nat max_retries) 0 None w
                ltac:(lia) ltac:(lia)) as (evs & Hw & Hev & _).
    rewrite Hrun in Hw. cbn [snd] in Hw. subst w'. exists evs.
    repeat split; try apply Hwf.
    eapply Forall_impl; [exact Hev|]. intros e [->|Hs]; [reflexivity|].
    destruct e; [discriminate Hs..|reflexivity].
  - replace (Z.to_nat max_retries) with O in Hrun by lia.
    cbn [retry_loop] in Hrun. unfold ret in Hrun. injection Hrun as <- <-.
    exists []. rewrite after_nil. repeat split; try apply Hwf. constructor.
Qed.

Section FilerRuns.

Variable E : env.
Variable project_key : string.
Variable video_clips : gmap nat string.




End FilerRuns.

(** X9. When one of the four Jira variables is missing or empty, the filer
    does nothing for any bug: no request is made, and the report is the single
    entry ["Missing Jira environment variables"]. *)
Theorem create_issues_without_config (E : env) (cfg : jira_config)
    (bugs_list : list bug) (video_clips : option (gmap nat string))
    (w : world) :
  configured cfg = false ->
  create_issues E cfg bugs_list video_clips w
  = (inr [RError "Missing Jira environment variables"], w).
Proof.
  unfold configured, create_issues. intros ->. reflexivity.
Qed.

Lemma create_issues_without_config_witness :
  create_issues env_clip_gone
    (MkConfig (Some "https://jira.example") (Some "token") (Some "") (Some "QA"))
    [bug_demo; bug_demo] (Some clips_demo) world0
  = (inr [RError "Missing Jira environment variables"], world0).
Proof.
  apply create_issues_without_config. reflexivity.
Defined.



(** What that run reports: the refusals of the first and the third ticket,
    and nothing for the second. *)
Example create_issues_refusals :
  fst (create_issues env_refusals cfg_demo [bug_demo; bug_demo; bug_demo]
         (Some clips_demo) world0)
  = inr [RStatus 400 "summary is required"; RStatus 503 "busy"].
Proof. reflexivity. Qed.

Section FilerOutcomes.

Variable E : env.
Variable project_key : string.
Variable video_clips : gmap nat string.

(** X11. A ticket that Jira refuses (a status from 300 on) is reported with
    its status and body; nothing is attached for it, even when its clip is
    there, and the creation is not tried again. *)
Theorem refused_ticket_is_reported (errors : list report_entry) (idx : nat)
    (b : bug) (w : world) (resp : response) :
  net E (posts w) = Responds resp ->
  300 <= status_code resp ->
  file_issue E project_key video_clips errors idx b w
  = (inr (errors ++ [RStatus (status_code resp) (text resp)])%list,
     MkWorld (S (posts w))
       (trace w ++ [EvCreate (issue_payload project_key b)])).
Proof.
  intros Hnet Hst. unfold file_issue. run_m. rewrite Hnet.
  destruct (Z.leb_spec 300 (status_code resp)); [reflexivity|lia].
Qed.

(** X12. A created ticket whose clip is on the disk: the upload is run once,
    with three attempts at most, after the creation request.  When it fails
    the report gets one warning, which names the ticket's key and carries the
    upload's message, never an empty one; when it succeeds the report gets
    nothing.  Either way the pass does not raise. *)
Theorem attachment_failure_is_a_warning (errors : list report_entry)
    (idx : nat) (b : bug) (w : world) (resp : response)
    (fields' : list (string * json)) (issue_key : json)
    (video_path : string) (nd : node) :
  net E (posts w) = Responds resp ->
  status_code resp < 300 ->
  json_body resp = inr (JObj fields') ->
  assoc "key" fields' = Some issue_key ->
  json_truthy issue_key = true ->
  video_clips !! idx = Some video_path ->
  fs E video_path = Some nd ->
  exists attached error_msg w',
    attach_file_to_issue E issue_key video_path 3
      (posted (EvCreate (issue_payload project_key b)) w)
      = (inr (attached, error_msg), w') /\
    (attached = false -> error_msg <> "") /\
    file_issue E project_key video_clips errors idx b w
    = (inr (if attached then errors
            else (errors ++ [RWarning issue_key error_msg])%list),
       w').
Proof.
  intros Hnet Hst Hjson Hkey Htruthy Hclip Hfs.
  destruct (attach_frame E issue_key video_path 3
              (posted (EvCreate (issue_payload project_key b)) w))
    as ([attached error_msg] & evs & Hrun & Hwf & _).
  exists attached, error_msg, (after (posted (EvCreate (issue_payload project_key b)) w) evs).
  split; [exact Hrun|]. split.
  - intros -> Hmsg. unfold well_formed_outcome in Hwf; cbn [fst snd] in Hwf.
    apply Hwf in Hmsg. discriminate.
  - unfold file_issue, resp_json, json_get. run_m. rewrite Hnet.
    destruct (Z.leb_spec 300 (status_code resp)); [lia|].
    rewrite Hjson. run_m. rewrite Hkey, Htruthy, Hclip, Hfs.
    fold (posted (EvCreate (issue_payload project_key b)) w).
    rewrite Hrun. now destruct attached.
Qed.

(** X13. A ticket created without a usable key (the body is a JSON object
    with no [key], or with a [key] that is null, empty or zero) gets no clip:
    nothing is attached even when the clip is on the disk, and nothing is
    reported. *)
Theorem ticket_without_key_gets_no_clip (errors : list report_entry)
    (idx : nat) (b : bug) (w : world) (resp : response)
    (fields' : list (string * json)) :
  net E (posts w) = Responds resp ->
  status_code resp < 300 ->
  json_body resp = inr (JObj fields') ->
  json_truthy (default JNull (assoc "key" fields')) = false ->
  file_issue E project_key video_clips errors idx b w
  = (inr errors,
     MkWorld (S (posts w))
       (trace w ++ [EvCreate (issue_payload project_key b)])).
Proof.
  intros Hnet Hst Hjson Hkey. unfold file_issue, resp_json, json_get.
  run_m. rewrite Hnet.
  destruct (Z.leb_spec 300 (status_code resp)); [lia|].
  rewrite Hjson. run_m.
  destruct (assoc "key" fields') as [v|]; simpl in Hkey;
    [now rewrite Hkey|reflexivity].
Qed.

(** X14. A status below 300 with a body that is not a JSON object: the
    exception of [resp.json()], or of [get] on a value that is not a dict, is
    caught; the report gets one [error] entry with its text, nothing is
    attached, and the loop goes on. *)
Theorem unreadable_reply_is_an_error (errors : list report_entry)
    (idx : nat) (b : bug) (w : world) (resp : response) :
  net E (posts w) = Responds resp ->
  status_code resp < 300 ->
  (forall fields', json_body resp <> inr (JObj fields')) ->
  file_issue E project_key video_clips errors idx b w
  = (inr (errors ++
          [RError match json_body resp with
                  | inl e => exn_str e
                  | inr v =>
                      "'" ++ type_name v ++ "' object has no attribute 'get'"
                  end])%list,
     MkWorld (S (posts w))
       (trace w ++ [EvCreate (issue_payload project_key b)])).
Proof.
  intros Hnet Hst Hjson. unfold file_issue, resp_json, json_get.
  run_m. rewrite Hnet.
  destruct (Z.leb_spec 300 (status_code resp)); [lia|].
  destruct (json_body resp) as [e|v]; run_m; [reflexivity|].
  destruct v as [| | | | | |fields0]; run_m; try reflexivity.
  now destruct (Hjson fields0).
Qed.

End FilerOutcomes.

Lemma refused_ticket_is_reported_witness :
  file_issue env_refusals "QA" clips_demo [] 0 bug_demo world0
  = (inr [RStatus 400 "summary is required"],
     MkWorld 1 [EvCreate (issue_payload "QA" bug_demo)]).
Proof.
  apply (refused_ticket_is_reported env_refusals "QA" clips_demo [] 0%nat
           bug_demo world0
           (MkResponse 400 "summary is required"
              (inl (MkExn OtherException "not JSON")))).
  - reflexivity.
  - simpl. lia.
Defined.

Lemma attachment_failure_is_a_warning_witness :
  exists attached error_msg w',
    attach_file_to_issue env_empty_clip (JStr "QA-7") "/tmp/gone.mp4" 3
      (posted (EvCreate (issue_payload "QA" bug_demo)) world0)
      = (inr (attached, error_msg), w') /\
    (attached = false -> error_msg <> "") /\
    file_issue env_empty_clip "QA" clips_demo [] 0 bug_demo world0
    = (inr (if attached then []
            else ([] ++ [RWarning (JStr "QA-7") error_msg])%list),
       w').
Proof.
  apply (attachment_failure_is_a_warning env_empty_clip "QA" clips_demo []
           0%nat bug_demo world0
           (MkResponse 201 "{}"
              (inr (JObj [("id", JStr "10007"); ("key", JStr "QA-7")])))
           [("id", JStr "10007"); ("key", JStr "QA-7")] (JStr "QA-7")
           "/tmp/gone.mp4" (bytes_node 0 [])).
  - reflexivity.
  - simpl. lia.
  - reflexivity.
  - reflexivity.
  - reflexivity.
  - reflexivity.
  - reflexivity.
Defined.

(** What that pass reports: the ticket exists, its clip was empty. *)
Example create_issues_empty_clip :
  create_issues env_empty_clip cfg_demo [bug_demo] (Some clips_demo) world0
  = (inr [RWarning (JStr "QA-7") "File is empty"],
     MkWorld 1 [EvCreate (issue_payload "QA" bug_demo)]).
Proof. reflexivity. Qed.

Lemma ticket_without_key_gets_no_clip_witness :
  file_issue env_no_key "QA" clips_demo [] 0 bug_demo world0
  = (inr [], MkWorld 1 [EvCreate (issue_payload "QA" bug_demo)]).
Proof.
  apply (ticket_without_key_gets_no_clip env_no_key "QA" clips_demo []
           0%nat bug_demo world0
           (MkResponse 201 "{}" (inr (JObj [("id", JStr "10007")])))
           [("id", JStr "10007")]).
  - reflexivity.
  - simpl. lia.
  - reflexivity.
  - reflexivity.
Defined.

Lemma unreadable_reply_is_an_error_witness :
  file_issue env_html "QA" clips_demo [] 0 bug_demo world0
  = (inr [RError "Expecting value: line 1 column 1 (char 0)"],
     MkWorld 1 [EvCreate (issue_payload "QA" bug_demo)]).
Proof.
  apply (unreadable_reply_is_an_error env_html "QA" clips_demo [] 0%nat
           bug_demo world0
           (MkResponse 200 "<html>"
              (inl (MkExn OtherException
                      "Expecting value: line 1 column 1 (char 0)")))).
  - reflexivity.
  - simpl. lia.
  - intros fields' H. discriminate H.
Defined.

(** ** Rich-text body *)

Lemma fold_left_filter_map {A B} (P : A -> bool) (f : A -> B) (l : list A) :
  forall acc,
    fold_left (fun acc x => if P x then (acc ++ [f x])%list else acc) l acc
    = (acc ++ map f (List.filter P l))%list.
Proof.
  induction l as [|x l IH]; intros acc; simpl; [now rewrite app_nil_r|].
  rewrite IH. destruct (P x); [|reflexivity].
  now rewrite <- app_assoc.
Qed.

(** X15. For a text that is not empty, the document holds one paragraph for
    each line that is not blank, in the order of the lines, with the line
    stripped as its text; blank lines give nothing, and when every line is
    blank the content is one empty paragraph. *)
Theorem text_to_adf_paragraphs (text : string) :
  text <> "" ->
  doc_content (text_to_adf text)
  = match List.filter nonblank (Py.split Py.LF (Py.strip text)) with
    | [] => [MkParagraph "paragraph" []]
    | lines => map paragraph_of lines
    end.
Proof.
  intros Hne. unfold text_to_adf.
  destruct text as [|c text]; [contradiction|]. cbn [Py.truthy negb].
  rewrite (fold_left_filter_map nonblank paragraph_of). cbn [app doc_content].
  now destruct (List.filter nonblank _).
Qed.

Lemma text_to_adf_paragraphs_witness :
  doc_content (text_to_adf steps_text)
  = [MkParagraph "paragraph" [MkText "text" "Expected: login"];
     MkParagraph "paragraph" [MkText "text" "Actual: nothing"]].
Proof.
  rewrite (text_to_adf_paragraphs steps_text); [reflexivity|discriminate].
Defined.

Definition no_lead (s : string) : Prop :=
  match s with
  | EmptyString => True
  | String c _ => Py.is_space c = false
  end.

Lemma lstrip_no_lead (s : string) : no_lead (Py.lstrip s).
Proof.
  induction s as [|c s IH]; simpl; [exact I|].
  destruct (Py.is_space c) eqn:Hc; [exact IH|exact Hc].
Qed.

Lemma lstrip_id (s : string) : no_lead s -> Py.lstrip s = s.
Proof. destruct s as [|c s]; simpl; [reflexivity|]. now intros ->. Qed.

Lemma rstrip_no_lead (s : string) : no_lead s -> no_lead (Py.rstrip s).
Proof.
  destruct s as [|c s]; simpl; [exact id|]. intros Hc.
  destruct (Py.rstrip s); [rewrite Hc|]; exact Hc.
Qed.

Lemma rstrip_idem (s : string) : Py.rstrip (Py.rstrip s) = Py.rstrip s.
Proof.
  induction s as [|c s IH]; [reflexivity|]. cbn [Py.rstrip].
  destruct (Py.rstrip s) as [|d r] eqn:Hr.
  - destruct (Py.is_space c) eqn:Hc; [reflexivity|].
    cbn [Py.rstrip]. now rewrite Hc.
  - cbn [Py.rstrip] in *. now rewrite IH.
Qed.

(** Stripping twice is stripping once. *)
Lemma strip_idem (s : string) : Py.strip (Py.strip s) = Py.strip s.
Proof.
  unfold Py.strip.
  rewrite (lstrip_id (Py.rstrip (Py.lstrip s)))
    by apply rstrip_no_lead, lstrip_no_lead.
  apply rstrip_idem.
Qed.

Lemma has_char_lstrip (c : ascii) (s : string) :
  has_char c s = false -> has_char c (Py.lstrip s) = false.
Proof.
  induction s as [|d s IH]; simpl; [reflexivity|].
  intros [Hd Hs]%orb_false_iff.
  destruct (Py.is_space d); [exact (IH Hs)|]. simpl. now rewrite Hd, Hs.
Qed.

Lemma has_char_rstrip (c : ascii) (s : string) :
  has_char c s = false -> has_char c (Py.rstrip s) = false.
Proof.
  induction s as [|d s IH]; simpl; [reflexivity|].
  intros [Hd Hs]%orb_false_iff. specialize (IH Hs).
  destruct (Py.rstrip s) as [|e r].
  - destruct (Py.is_space d); simpl; [reflexivity|]. now rewrite Hd.
  - cbn [has_char] in *. now rewrite Hd, IH.
Qed.

Lemma has_char_strip (c : ascii) (s : string) :
  has_char c s = false -> has_char c (Py.strip s) = false.
Proof. intros H. now apply has_char_rstrip, has_char_lstrip. Qed.

(** No part of a split holds the separator. *)
Lemma split_parts (sep : ascii) (s : string) :
  Forall (fun part => has_char sep part = false) (Py.split sep s).
Proof.
  induction s as [|c s IH]; simpl; [now repeat constructor|].
  destruct (Ascii.eqb_spec c sep) as [->|Hne].
  - now constructor.
  - assert (Hc : Ascii.eqb c sep = false) by now apply Ascii.eqb_neq.
    destruct (Py.split sep s) as [|h t].
    + constructor; [|constructor]. simpl. now rewrite Hc.
    + inversion IH as [|? ? Hh Ht]; subst.
      constructor; [|exact Ht]. simpl. now rewrite Hc, Hh.
Qed.

Lemma paragraph_of_clean (line : string) :
  nonblank line = true ->
  has_char Py.LF line = false ->
  clean_paragraph (paragraph_of line).
Proof.
  intros Hnb Hlf. unfold clean_paragraph, paragraph_of; cbn.
  repeat split; [lia|]. constructor; [|constructor].
  unfold clean_text; cbn. repeat split.
  - unfold nonblank in Hnb. now destruct (Py.strip line).
  - apply strip_idem.
  - now apply has_char_strip.
Qed.

(** X16. Whatever the text, the document is well formed: version 1, type
    [doc], and each paragraph is typed [paragraph] and holds one text node at
    most; the text of a node is never empty, has no white space around it and
    holds no line feed. *)
Theorem text_to_adf_is_clean (text : string) :
  doc_version (text_to_adf text) = 1 /\
  doc_type (text_to_adf text) = "doc" /\
  Forall clean_paragraph (doc_content (text_to_adf text)).
Proof.
  destruct text as [|c text]; [now repeat split|].
  split; [reflexivity|]. split; [reflexivity|].
  unfold text_to_adf. cbn [Py.truthy negb].
  rewrite (fold_left_filter_map nonblank paragraph_of). cbn [app doc_content].
  pose proof (split_parts Py.LF (Py.strip (String c text))) as Hparts.
  assert (Hclean : Forall clean_paragraph
            (map paragraph_of
               (List.filter nonblank
                  (Py.split Py.LF (Py.strip (String c text)))))).
  { induction Hparts as [|line lines Hline _ IH]; [constructor|].
    cbn [List.filter]. destruct (nonblank line) eqn:Hnb; [|exact IH].
    cbn [map]. constructor; [|exact IH]. now apply paragraph_of_clean. }
  destruct (List.filter nonblank _); [|exact Hclean].
  constructor; [|constructor].
  unfold clean_paragraph; cbn. repeat split; [lia|constructor].
Qed.

(** X17. White space around the whole text does not matter: a text with
    something in it gives the same document as the text stripped. *)
Theorem text_to_adf_ignores_margins (text : string) :
  Py.strip text <> "" ->
  text_to_adf text = text_to_adf (Py.strip text).
Proof.
  intros Hne. unfold text_to_adf. rewrite strip_idem.
  destruct text as [|c text]; [contradiction|].
  destruct (Py.strip (String c text)); [contradiction|reflexivity].
Qed.

Lemma text_to_adf_ignores_margins_witness :
  text_to_adf steps_text = text_to_adf (Py.strip steps_text).
Proof.
  apply text_to_adf_ignores_margins. discriminate.
Defined.

(** ** Bug extractor: prose around the JSON *)

Lemma string_app_assoc (a b c : string) : (a ++ b) ++ c = a ++ b ++ c.
Proof.
  induction a as [|x a IH]; [reflexivity|].
  change (String x ((a ++ b) ++ c) = String x (a ++ b ++ c)).
  now rewrite IH.
Qed.

Lemma substring_app_head (a b : string) :
  substring 0 (String.length a) (a ++ b) = a.
Proof.
  induction a as [|x a IH]; simpl; [now destruct b|]. now rewrite IH.
Qed.

Lemma substring_app_skip (p s : string) (m : nat) :
  substring (String.length p) m (p ++ s) = substring 0 m s.
Proof. induction p as [|x p IH]; simpl; [reflexivity|exact IH]. Qed.

Lemma find_char_app (c : ascii) (p r : string) :
  has_char c p = false ->
  Py.find_char c (p ++ String c r) = Some (String.length p).
Proof.
  induction p as [|d p IH]; simpl.
  - intros _. now rewrite Ascii.eqb_refl.
  - intros [Hd Hp]%orb_false_iff. rewrite Ascii.eqb_sym, Hd, (IH Hp).
    reflexivity.
Qed.

Lemma has_char_rfind_None (c : ascii) (s : string) :
  has_char c s = false -> Py.rfind_char c s = None.
Proof.
  induction s as [|d s IH]; simpl; [reflexivity|].
  intros [Hd Hs]%orb_false_iff. rewrite (IH Hs), Ascii.eqb_sym, Hd.
  reflexivity.
Qed.

Lemma rfind_char_app (c : ascii) (x q : string) :
  has_char c q = false ->
  Py.rfind_char c (x ++ String c q) = Some (String.length x).
Proof.
  intros Hq. induction x as [|d x IH]; simpl.
  - now rewrite (has_char_rfind_None _ _ Hq), Ascii.eqb_refl.
  - now rewrite IH.
Qed.

(** In [p ++ open ++ body ++ close ++ q], with no [open] in [p] and no
    [close] in [q], the slice from the first [open] to the last [close] is
    [open ++ body ++ close]. *)
Lemma bracket_slice (c1 c2 : ascii) (p body q : string) :
  has_char c1 p = false ->
  has_char c2 q = false ->
  let raw := p ++ String c1 (body ++ String c2 q) in
  exists i j,
    Py.find_char c1 raw = Some i /\
    Py.rfind_char c2 raw = Some j /\
    Py.str_slice i (j + 1) raw = String c1 (body ++ String c2 "").
Proof.
  intros Hp Hq raw.
  exists (String.length p), (String.length (p ++ String c1 body)).
  split; [apply find_char_app, Hp|]. split.
  - unfold raw.
    replace (p ++ String c1 (body ++ String c2 q))
      with ((p ++ String c1 body) ++ String c2 q)
      by (rewrite string_app_assoc; reflexivity).
    apply rfind_char_app, Hq.
  - unfold Py.str_slice, raw. rewrite substring_app_skip.
    rewrite string_length_app.
    replace (String.length p + String.length (String c1 body) + 1
             - String.length p)%nat
      with (String.length (String c1 (body ++ String c2 "")))
      by (cbn [String.length]; rewrite string_length_app;
          cbn [String.length]; lia).
    replace (String c1 (body ++ String c2 q))
      with (String c1 (body ++ String c2 "") ++ q)
      by (change (String c1 (body ++ String c2 "") ++ q)
            with (String c1 ((body ++ String c2 "") ++ q));
          rewrite string_app_assoc; reflexivity).
    apply substring_app_head.
Qed.

Section ExtractorProse.

Context {J : JsonLoads}.

(** X18. Prose around the array does not hurt: for a response
    [p ++ "[" ++ body ++ "]" ++ q] that is not JSON as a whole, with no [[] in
    [p] and no []] in [q], the extractor returns what the array text
    [[body]] parses to, and the empty list when the array text is broken. *)
Theorem wrapped_array_is_recovered (p body q : string) :
  has_char "["%char p = false ->
  has_char "]"%char q = false ->
  json_loads (p ++ String "["%char (body ++ String "]"%char q)) = None ->
  parse_bug_list (p ++ String "["%char (body ++ String "]"%char q))
  = match json_loads (String "["%char (body ++ String "]"%char "")) with
    | Some v => v
    | None => JArr []
    end.
Proof.
  intros Hp Hq Hraw.
  destruct (bracket_slice "["%char "]"%char p body q Hp Hq)
    as (i & j & Hi & Hj & Hslice).
  unfold parse_bug_list. rewrite Hraw. cbv zeta in Hi, Hj, Hslice.
  now rewrite Hi, Hj, Hslice.
Qed.

(** X19. The same for the candidate mode, with braces: the object text
    between the first [{] and the last [}] is what counts, and the sentinel is
    returned when it is broken. *)
Theorem wrapped_object_is_recovered (p body q : string) :
  has_char "{"%char p = false ->
  has_char "}"%char q = false ->
  json_loads (p ++ String "{"%char (body ++ String "}"%char q)) = None ->
  parse_candidates (p ++ String "{"%char (body ++ String "}"%char q))
  = match json_loads (String "{"%char (body ++ String "}"%char "")) with
    | Some v => v
    | None => parsing_failed
    end.
Proof.
  intros Hp Hq Hraw.
  destruct (bracket_slice "{"%char "}"%char p body q Hp Hq)
    as (i & j & Hi & Hj & Hslice).
  unfold parse_candidates. rewrite Hraw. cbv zeta in Hi, Hj, Hslice.
  now rewrite Hi, Hj, Hslice.
Qed.

(** X20. A completion without content ([None] or the empty string) is not an
    error: the bug extractor returns the empty list, and the candidate mode
    the empty dict (not its sentinel). *)
Theorem empty_completion (client : chat_client) (timestamped_text : string)
    (content : option string) :
  content = None \/ content = Some "" ->
  (client (Py.take 6000 timestamped_text) = inr content ->
   analyze_with_transcript client timestamped_text = inr (JArr [])) /\
  (client timestamped_text = inr content ->
   find_candidate_seconds client timestamped_text = inr (JObj [])).
Proof.
  intros Hcontent.
  unfold analyze_with_transcript, find_candidate_seconds,
    parse_bug_list, parse_candidates.
  split; intros ->; destruct Hcontent as [-> | ->]; cbn [Py.or_else Py.truthy];
    now rewrite ?loads_empty_array, ?loads_empty_object.
Qed.

(** X21. The bug extractor reads the first 6000 characters of the transcript
    and nothing else: what follows them changes neither the prompt nor the
    result. *)
Theorem transcript_is_cut_at_6000 (client : chat_client)
    (head rest : string) :
  String.length head = 6000%nat ->
  analyze_with_transcript client (head ++ rest)
  = analyze_with_transcript client head.
Proof.
  intros Hlen. unfold analyze_with_transcript, Py.take.
  rewrite <- Hlen, substring_app_head, substring_all. reflexivity.
Qed.

End ExtractorProse.

Lemma wrapped_array_is_recovered_witness :
  parse_bug_list wrapped_reply
  = JArr [JObj [("summary", JStr "X"); ("start_sec", JInt 9)]].
Proof.
  exact (eq_trans
           (wrapped_array_is_recovered (J:=ref_json) "Sure! Here you go: "
              ("{" ++ quoted "summary" ++ ":" ++ quoted "X" ++ ","
                   ++ quoted "start_sec" ++ ":9}")
              " Thanks" eq_refl eq_refl eq_refl)
           eq_refl).
Defined.

Lemma wrapped_object_is_recovered_witness :
  parse_candidates wrapped_object_reply = JObj [("candidates", JArr [])].
Proof.
  exact (eq_trans
           (wrapped_object_is_recovered (J:=ref_json) "Here is the JSON: "
              (quoted "candidates" ++ ":[]") " Hope it helps"
              eq_refl eq_refl eq_refl)
           eq_refl).
Defined.

Lemma empty_completion_witness :
  analyze_with_transcript (fixed_client (Some "")) "[  0-  4s] hello"
    = inr (JArr []) /\
  find_candidate_seconds (fixed_client (Some "")) "[  0-  4s] hello"
    = inr (JObj []).
Proof.
  destruct (empty_completion (J:=ref_json) (fixed_client (Some ""))
              "[  0-  4s] hello" (Some "") (or_intror eq_refl)) as [Ha Hf].
  split; [apply Ha|apply Hf]; reflexivity.
Defined.

Lemma transcript_is_cut_at_6000_witness :
  analyze_with_transcript counting_client
    (String.concat "" (repeat "0123456789" 600) ++ "and more")
  = analyze_with_transcript counting_client
      (String.concat "" (repeat "0123456789" 600)).
Proof.
  apply (transcript_is_cut_at_6000 (J:=ref_json)). vm_compute. reflexivity.
Defined.

(** ** Clip planner: the clip map *)

Section PlannerRuns.

Variable extract_video_clip : number -> number -> exn + string.

(** X22. The clip map of a run holds an entry for bug number [k] exactly when
    the extraction of that bug succeeded, and the entry is the clip cut at the
    bug's own window; a failed extraction costs that bug its clip and no other
    bug anything, and there are no entries beyond the list. *)
Theorem clip_map_entries (bugs : list bug) (k : nat) :
  fst (plan_clips extract_video_clip ∅ [] 0 bugs) !! k
  = match bugs !! k with
    | Some b =>
        match extract_video_clip (fst (clip_window b)) (snd (clip_window b))
        with
        | inr clip_path => Some clip_path
        | inl _ => None
        end
    | None => None
    end.
Proof.
  destruct (bugs !! k) as [b|] eqn:Hk.
  - apply (plan_clips_entry extract_video_clip bugs ∅ [] 0%nat k b Hk).
    apply lookup_empty.
  - apply lookup_ge_None in Hk.
    assert (Hgen : forall bs (clips : gmap nat string) warnings idx,
              (idx + length bs <= k)%nat ->
              fst (plan_clips extract_video_clip clips warnings idx bs) !! k
              = clips !! k).
    { induction bs as [|b bs IH]; intros clips warnings idx Hlen;
        cbn [plan_clips]; [reflexivity|].
      simpl in Hlen. destruct (clip_window b) as [start_sec end_sec].
      destruct (extract_video_clip start_sec end_sec) as [e|clip_path];
        rewrite IH by lia; [reflexivity|].
      apply lookup_insert_ne. lia. }
    rewrite Hgen by (simpl; lia). apply lookup_empty.
Qed.

Lemma plan_clips_count (bugs : list bug) :
  forall (video_clips : gmap nat string) warnings idx,
    (forall j, (idx <= j)%nat -> video_clips !! j = None) ->
    (size (fst (plan_clips extract_video_clip video_clips warnings idx bugs))
     + length (snd (plan_clips extract_video_clip video_clips warnings idx
                      bugs))
     = size video_clips + length warnings + length bugs)%nat.
Proof.
  induction bugs as [|b bugs IH]; intros video_clips warnings idx Hfree;
    cbn [plan_clips]; [simpl; lia|].
  destruct (clip_window b) as [start_sec end_sec].
  destruct (extract_video_clip start_sec end_sec) as [e|clip_path].
  - rewrite IH by (intros j Hj; apply Hfree; lia).
    rewrite length_app. simpl. lia.
  - rewrite IH.
    + rewrite map_size_insert_None by (apply Hfree; lia). simpl. lia.
    + intros j Hj. rewrite lookup_insert_ne by lia. apply Hfree. lia.
Qed.

(** X23. Every bug is accounted for: the clips in the map and the warnings
    shown add up to the number of bugs. *)
Theorem every_bug_has_a_clip_or_a_warning (bugs : list bug) :
  (size (fst (plan_clips extract_video_clip ∅ [] 0 bugs))
   + length (snd (plan_clips extract_video_clip ∅ [] 0 bugs))
   = length bugs)%nat.
Proof.
  rewrite plan_clips_count by (intros j _; apply lookup_empty).
  rewrite map_size_empty. simpl. lia.
Qed.

End PlannerRuns.

Example plan_clips_demo :
  plan_clips extract_demo ∅ [] 0 [bug_1_3; bug_10]
  = ({[ 1%nat := "/tmp/clip.mp4" ]},
     ["Failed to extract clip for bug 1: ffmpeg video clip extraction failed."]).
Proof. reflexivity. Qed.

(** X24. For a bug with whole seconds and a start that is not negative, the
    window holds the bug's own range: it starts at most 2 seconds before the
    start and never below 0, and ends 2 seconds after the end. *)
Theorem clip_window_holds_the_bug (b : bug) (start_sec end_sec : Z) :
  b_start_sec b = Some (Int start_sec) ->
  b_end_sec b = Some (Int end_sec) ->
  0 <= start_sec ->
  exists window_start window_end,
    clip_window b = (Int window_start, Int window_end) /\
    0 <= window_start /\
    start_sec - 2 <= window_start <= start_sec /\
    window_end = end_sec + 2.
Proof.
  intros Hs He Hpos. unfold clip_window. rewrite Hs, He.
  cbn [default from_option id sub_lit add_lit]. rewrite max_zero_int.
  exists (Z.max 0 (start_sec - 2)), (end_sec + 2).
  repeat split; lia.
Qed.

Lemma clip_window_holds_the_bug_witness :
  exists window_start window_end,
    clip_window (bug_int 1 3) = (Int window_start, Int window_end) /\
    0 <= window_start /\
    1 - 2 <= window_start <= 1 /\
    window_end = 3 + 2.
Proof.
  apply (clip_window_holds_the_bug (bug_int 1 3) 1 3);
    [reflexivity|reflexivity|lia].
Defined.

(** ** Frame helpers *)

Lemma py_range_nil (lo hi : Z) : hi <= lo -> py_range lo hi = [].
Proof.
  intros H. unfold py_range. now replace (Z.to_nat (hi - lo)) with O by lia.
Qed.

Lemma py_range_cons (lo hi : Z) :
  lo < hi -> py_range lo hi = lo :: py_range (lo + 1) hi.
Proof.
  intros H. unfold py_range.
  replace (Z.to_nat (hi - lo)) with (S (Z.to_nat (hi - (lo + 1)))) by lia.
  cbn [seq map]. f_equal; [lia|].
  rewrite <- seq_shift, map_map. apply map_ext. intros i. lia.
Qed.

Lemma elem_of_py_range (s lo hi : Z) : s ∈ py_range lo hi <-> lo <= s < hi.
Proof.
  unfold py_range. rewrite list_elem_of_In, in_map_iff. split.
  - intros (i & <- & Hi%in_seq). lia.
  - intros Hs. exists (Z.to_nat (s - lo)). split; [lia|].
    apply in_seq. lia.
Qed.

Lemma window_fold (second_to_path : gmap Z string) (seconds : list Z) :
  forall images,
    fold_left
      (fun images s =>
         match second_to_path !! s with
         | Some path => (images ++ [path])%list
         | None => images
         end) seconds images
    = (images ++ omap (fun s => second_to_path !! s) seconds)%list.
Proof.
  induction seconds as [|s seconds IH]; intros images; cbn [fold_left omap];
    [now rewrite app_nil_r|].
  rewrite IH. cbn [list_omap].
  destruct (second_to_path !! s); [|reflexivity].
  now rewrite <- app_assoc.
Qed.

Lemma length_omap_le {A B} (f : A -> option B) (l : list A) :
  (length (omap f l) <= length l)%nat.
Proof.
  induction l as [|x l IH]; csimpl; [lia|]. destruct (f x); csimpl; lia.
Qed.

(** X25. The images of a window are those of the seconds from
    [center - radius] to [center + radius] that have a frame, in the order of
    the seconds: there are at most [2 * radius + 1] of them, seconds without a
    frame are passed over, and a negative radius gives none. *)
Theorem window_images (second_to_path : gmap Z string)
    (center_second window_radius : Z) :
  let images :=
    get_window_images second_to_path center_second window_radius in
  images
  = omap (fun s => second_to_path !! s)
      (py_range (center_second - window_radius)
         (center_second + window_radius + 1)) /\
  (length images <= Z.to_nat (2 * window_radius + 1))%nat /\
  (forall path,
     path ∈ images <->
     exists s,
       center_second - window_radius <= s <= center_second + window_radius /\
       second_to_path !! s = Some path).
Proof.
  intros images.
  assert (Himages : images
            = omap (fun s => second_to_path !! s)
                (py_range (center_second - window_radius)
                   (center_second + window_radius + 1)))
    by (unfold images, get_window_images; now rewrite window_fold).
  split; [exact Himages|]. rewrite Himages. split.
  - etransitivity; [apply length_omap_le|].
    unfold py_range. rewrite length_map, length_seq. lia.
  - intros path. rewrite list_elem_of_omap. split.
    + intros (s & Hs%elem_of_py_range & Hpath). exists s. split; [lia|easy].
    + intros (s & Hs & Hpath). exists s. split; [|exact Hpath].
      apply elem_of_py_range. lia.
Qed.

Lemma frame_fold (frames_dir : string) (files : list string) :
  forall (start : Z) (d : gmap Z string) (k : Z),
    fold_left
      (fun second_to_path entry =>
         <[fst entry := path_join frames_dir (snd entry)]> second_to_path)
      (enumerate_from start files) d !! k
    = match (if start <=? k then files !! Z.to_nat (k - start) else None) with
      | Some name => Some (path_join frames_dir name)
      | None => d !! k
      end.
Proof.
  induction files as [|x files IH]; intros start d k;
    cbn [enumerate_from fold_left].
  - now destruct (start <=? k).
  - rewrite IH. cbn [fst snd].
    destruct (Z.leb_spec (start + 1) k) as [Hgt|Hle].
    + destruct (Z.leb_spec start k); [|lia].
      replace (Z.to_nat (k - start)) with (S (Z.to_nat (k - (start + 1))))
        by lia.
      cbn [lookup list_lookup].
      destruct (files !! Z.to_nat (k - (start + 1))); [reflexivity|].
      apply lookup_insert_ne. lia.
    + destruct (Z.leb_spec start k) as [Hk|Hk].
      * assert (k = start) as -> by lia. rewrite Z.sub_diag.
        cbn [Z.to_nat lookup list_lookup]. apply lookup_insert_eq.
      * apply lookup_insert_ne. lia.
Qed.

Section FramesFacts.

Variable os_listdir : string -> exn + list string.

(** X26. For a directory that can be listed, the frame map numbers the
    [.jpg] files (whatever the case of the extension) from 1 on in the order
    of their names: second [k] holds the path of the [k]-th name, every such
    file has its second, other files have none, and there is no second 0 and
    none beyond the number of frames. *)
Theorem frame_map_entries (frames_dir : string) (names : list string) :
  os_listdir frames_dir = inr names ->
  exists files second_to_path,
    build_second_to_frame_map os_listdir frames_dir = inr second_to_path /\
    Permutation (List.filter is_jpg names) files /\
    Sorted.Sorted (fun a b => String.leb a b = true) files /\
    forall k,
      second_to_path !! k
      = if 1 <=? k
        then path_join frames_dir <$> files !! Z.to_nat (k - 1)
        else None.
Proof.
  intros Hls. exists (StringSort.sort (List.filter is_jpg names)).
  eexists. unfold build_second_to_frame_map. rewrite Hls.
  split; [reflexivity|]. split; [apply StringSort.Permuted_sort|].
  split; [apply StringSort.Sorted_sort|].
  intros k. rewrite frame_fold.
  destruct (1 <=? k); [|apply lookup_empty].
  destruct (_ !! Z.to_nat (k - 1)); [reflexivity|apply lookup_empty].
Qed.

End FramesFacts.

Lemma frame_map_entries_witness :
  exists files second_to_path,
    build_second_to_frame_map listdir_demo "/tmp/frames"
      = inr second_to_path /\
    Permutation
      (List.filter is_jpg
         ["frame_0003.jpg"; "notes.txt"; "frame_0001.jpg"; "frame_0004.JPG";
          "frame_0002.jpg"]) files /\
    Sorted.Sorted (fun a b => String.leb a b = true) files /\
    forall k,
      second_to_path !! k
      = if 1 <=? k
        then path_join "/tmp/frames" <$> files !! Z.to_nat (k - 1)
        else None.
Proof.
  apply (frame_map_entries listdir_demo "/tmp/frames"). reflexivity.
Defined.

Example frame_map_demo :
  build_second_to_frame_map listdir_demo "/tmp/frames"
  = inr (list_to_map
           [(1, "/tmp/frames/frame_0001.jpg");
            (2, "/tmp/frames/frame_0002.jpg");
            (3, "/tmp/frames/frame_0003.jpg");
            (4, "/tmp/frames/frame_0004.JPG")]).
Proof. reflexivity. Qed.

Lemma length_omap_range {B} (f : Z -> option B) (a b : Z) :
  (forall s, is_Some (f s) <-> a <= s <= b) ->
  forall n lo hi,
    Z.to_nat (hi - lo) = n ->
    length (omap f (py_range lo hi))
    = Z.to_nat (Z.min b (hi - 1) - Z.max a lo + 1).
Proof.
  intros Hf. induction n as [|n IH]; intros lo hi Hn.
  - rewrite py_range_nil by lia. csimpl. lia.
  - rewrite py_range_cons by lia. csimpl.
    specialize (IH (lo + 1) hi ltac:(lia)). specialize (Hf lo).
    destruct (f lo) as [y|]; csimpl; rewrite IH.
    + assert (a <= lo <= b) by (apply Hf; eauto). lia.
    + assert (~ a <= lo <= b) by (intros H; apply Hf in H as [? [=]]). lia.
Qed.

(** X27. On the frame map of a directory with [n] frames, a window is cut at
    both ends of the video: it holds one image for each second from
    [max(1, center - radius)] to [min(n, center + radius)], so [2 * radius + 1]
    images in the middle and fewer near the first and the last frame. *)
Theorem window_of_frame_map (os_listdir : string -> exn + list string)
    (frames_dir : string) (names : list string) :
  os_listdir frames_dir = inr names ->
  exists second_to_path,
    build_second_to_frame_map os_listdir frames_dir = inr second_to_path /\
    forall center_second window_radius,
      length (get_window_images second_to_path center_second window_radius)
      = Z.to_nat
          (Z.min (Z.of_nat (length (List.filter is_jpg names)))
             (center_second + window_radius)
           - Z.max 1 (center_second - window_radius) + 1).
Proof.
  intros Hls. eexists. unfold build_second_to_frame_map. rewrite Hls.
  split; [reflexivity|]. intros c r.
  assert (Hf : forall s,
            is_Some
              (fold_left
                 (fun (second_to_path : gmap Z string) (entry : Z * string) =>
                    <[fst entry := path_join frames_dir (snd entry)]>
                      second_to_path)
                 (enumerate_from 1
                    (StringSort.sort (List.filter is_jpg names))) ∅ !! s)
            <-> 1 <= s <= Z.of_nat (length (List.filter is_jpg names))).
  { intros s. rewrite frame_fold.
    rewrite (Permutation_length
               (StringSort.Permuted_sort (List.filter is_jpg names))).
    destruct (Z.leb_spec 1 s) as [Hs|Hs].
    - destruct (StringSort.sort (List.filter is_jpg names)
                  !! Z.to_nat (s - 1)) as [name|] eqn:Hname.
      + apply lookup_lt_Some in Hname. split; [lia|eauto].
      + apply lookup_ge_None in Hname. rewrite lookup_empty.
        split; [intros [? [=]]|lia].
    - rewrite lookup_empty. split; [intros [? [=]]|lia]. }
  unfold get_window_images. rewrite window_fold. cbn [app].
  rewrite (length_omap_range _ 1 _ Hf _ _ _ eq_refl). f_equal. lia.
Qed.

Lemma window_of_frame_map_witness :
  exists second_to_path,
    build_second_to_frame_map listdir_demo "/tmp/frames"
      = inr second_to_path /\
    forall center_second window_radius,
      length (get_window_images second_to_path center_second window_radius)
      = Z.to_nat
          (Z.min
             (Z.of_nat
                (length
                   (List.filter is_jpg
                      ["frame_0003.jpg"; "notes.txt"; "frame_0001.jpg";
                       "frame_0004.JPG"; "frame_0002.jpg"])))
             (center_second + window_radius)
           - Z.max 1 (center_second - window_radius) + 1).
Proof.
  apply (window_of_frame_map listdir_demo "/tmp/frames"). reflexivity.
Defined.

Example window_at_the_start :
  match build_second_to_frame_map listdir_demo "/tmp/frames" with
  | inr second_to_path => get_window_images second_to_path 1 2
  | inl _ => []
  end
  = ["/tmp/frames/frame_0001.jpg"; "/tmp/frames/frame_0002.jpg";
     "/tmp/frames/frame_0003.jpg"].
Proof. reflexivity. Qed.

(** ** Transcription *)

Section TranscribeFacts.

Variable E : env.
Variable whisper : node -> exn + transcription.

(** X28. When the audio file opens and the speech-to-text call returns: a
    transcription without segments (no such attribute, [None], or an empty
    list) gives its full text as the timestamped text, and no exception; a
    transcription with segments whose times are [int]s or finite [float]s
    gives the lines of its segments, one for each and in order, and the full
    text beside them. *)
Theorem transcript_of_segments_or_text (audio_path : string) (audio : node)
    (t : transcription) :
  fs E audio_path = Some audio ->
  open_err audio = None ->
  whisper audio = inr t ->
  match tr_segments t with
  | NoSegments =>
      transcribe_with_timestamps E whisper audio_path
      = inr (Some [], default "" (tr_text t), default "" (tr_text t))
  | NullSegments =>
      transcribe_with_timestamps E whisper audio_path
      = inr (None, default "" (tr_text t), default "" (tr_text t))
  | Segments [] =>
      transcribe_with_timestamps E whisper audio_path
      = inr (Some [], default "" (tr_text t), default "" (tr_text t))
  | Segments segments =>
      Forall int_times segments ->
      exists lines,
        Forall2 renders segments lines /\
        transcribe_with_timestamps E whisper audio_path
        = inr (Some segments, default "" (tr_text t),
               Py.join (String Py.LF "") lines)
  end.
Proof.
  intros Hfs Hopen Hcall. unfold transcribe_with_timestamps.
  rewrite Hfs, Hopen, Hcall.
  destruct (tr_segments t) as [| |[|seg rest]]; try reflexivity.
  intros Hall.
  assert (Hlines : exists lines, Forall2 renders (seg :: rest) lines).
  { induction Hall as [|s l Hs _ [lines IH]]; [now exists []|].
    destruct (int_times_renders s Hs) as [line Hline].
    exists (line :: lines). now constructor. }
  destruct Hlines as [lines Hlines]. exists lines. split; [exact Hlines|].
  unfold flatten_segments_text.
  now rewrite (collect_lines_renders _ _ Hlines []).
Qed.

End TranscribeFacts.

Lemma transcript_of_segments_or_text_witness :
  (exists lines,
     Forall2 renders [seg_5_7; seg_open] lines /\
     transcribe_with_timestamps env_audio whisper_demo "/tmp/video.mp4.wav"
     = inr (Some [seg_5_7; seg_open], "hi the page is blank",
            Py.join (String Py.LF "") lines)) /\
  transcribe_with_timestamps env_audio whisper_plain "/tmp/video.mp4.wav"
  = inr (None, "hi the page is blank", "hi the page is blank").
Proof.
  split.
  - apply (transcript_of_segments_or_text env_audio whisper_demo
             "/tmp/video.mp4.wav" (bytes_node 64000 [])
             (MkTranscription (Segments [seg_5_7; seg_open])
                (Some "hi the page is blank")) eq_refl eq_refl eq_refl).
    repeat constructor.
    + exists 5, 7. split; reflexivity.
    + exists 12, 12. split; reflexivity.
  - exact (transcript_of_segments_or_text env_audio whisper_plain
             "/tmp/video.mp4.wav" (bytes_node 64000 [])
             (MkTranscription NullSegments (Some "hi the page is blank"))
             eq_refl eq_refl eq_refl).
Defined.

Example transcribe_demo :
  transcribe_with_timestamps env_audio whisper_demo "/tmp/video.mp4.wav"
  = inr (Some [seg_5_7; seg_open], "hi the page is blank",
         "[  5-  7s] hi" ++ String Py.LF "[ 12- 12s] the page is blank").
Proof. reflexivity. Qed.

(** ** Transcript formatter: a start that is no number *)

Lemma collect_lines_app (good : list segment) (lines : list string) :
  Forall2 renders good lines ->
  forall acc rest,
    collect_lines acc (good ++ rest) = collect_lines (acc ++ lines) rest.
Proof.
  induction 1 as [|seg line good lines Hr _ IH]; intros acc rest.
  - now rewrite app_nil_r.
  - cbn [app collect_lines].
    rewrite (segment_line_renders _ _ Hr), IH, <- app_assoc. reflexivity.
Qed.

(** X29. The formatter has no handler of its own: a segment whose start is
    NaN or an infinity makes the whole call raise the exception of [int()],
    whatever the segments before it and after it. *)
Theorem flatten_raises_on_bad_start (good rest : list segment)
    (bad : segment) (x : float) :
  Forall int_times good ->
  seg_start (fields bad) = Some (Float x) ->
  float_trunc x = None ->
  flatten_segments_text (good ++ bad :: rest)
  = inl (MkExn OtherException
           (if PrimFloat.is_nan x
            then "cannot convert float NaN to integer"
            else "cannot convert float infinity to integer")).
Proof.
  intros Hgood Hstart Hx.
  assert (Hlines : exists lines, Forall2 renders good lines).
  { induction Hgood as [|s l Hs _ [lines IH]]; [now exists []|].
    destruct (int_times_renders s Hs) as [line Hline].
    exists (line :: lines). now constructor. }
  destruct Hlines as [lines Hlines].
  unfold flatten_segments_text.
  rewrite (collect_lines_app _ _ Hlines). cbn [collect_lines].
  assert (Hbad : segment_line bad
                 = inl (MkExn OtherException
                          (if PrimFloat.is_nan x
                           then "cannot convert float NaN to integer"
                           else "cannot convert float infinity to integer"))).
  { destruct bad as [f|f]; cbn [segment_line fields] in *;
      unfold format_fields; rewrite Hstart; cbn [default from_option id py_int];
      now rewrite Hx. }
  now rewrite Hbad.
Qed.

Lemma flatten_raises_on_bad_start_witness :
  flatten_segments_text ([seg_5_7] ++ seg_nan :: [seg_open])
  = inl (MkExn OtherException "cannot convert float NaN to integer").
Proof.
  apply (flatten_raises_on_bad_start [seg_5_7] [seg_open] seg_nan
           PrimFloat.nan).
  - repeat constructor. exists 5, 7. split; reflexivity.
  - reflexivity.
  - reflexivity.
Defined.
